(** * A shallow embedding of the slot-filling dialogue manager of [main.py]

    The development follows the structure of class [GeminiAssistant]:
    string helpers standing for the Python [str] methods the code calls,
    the calendar arithmetic of [datetime], the data held by the assistant
    and by its JSON files, then every method of the class, and finally the
    properties of the dialogue state machine.

    Text is modelled as [string] (a sequence of 8-bit code units); the
    case and white-space functions below are those of Python on ASCII
    text. *)

From Stdlib Require Import ZArith String Ascii List Bool Lia.
From stdpp Require Import base option list gmap strings fin_maps.
Import ListNotations.

Local Open Scope string_scope.
Local Open Scope Z_scope.

(** ** Python [str] methods *)

Module PyStr.

(** The double-quote character, which the prompts of the source embed. *)
Definition dq : string := String (ascii_of_nat 34) EmptyString.

(** The line feed, [chr(10)]. *)
Definition nl : string := String (ascii_of_nat 10) EmptyString.

(** [c.lower()] on one ASCII character. *)
Definition lower_ascii (c : ascii) : ascii :=
  let n := nat_of_ascii c in
  if (Nat.leb 65 n && Nat.leb n 90)%bool then ascii_of_nat (n + 32) else c.

(** [s.lower()] *)
Fixpoint lower (s : string) : string :=
  match s with
  | EmptyString => EmptyString
  | String c r => String (lower_ascii c) (lower r)
  end.

(** [c.isspace()] on one ASCII character: tab, line feed, vertical tab,
    form feed, carriage return, the four separators 28..31 and space. *)
Definition is_space (c : ascii) : bool :=
  let n := nat_of_ascii c in
  ((Nat.leb 9 n && Nat.leb n 13) || (Nat.leb 28 n && Nat.leb n 32))%bool.

(** [s.lstrip()] *)
Fixpoint lstrip (s : string) : string :=
  match s with
  | EmptyString => EmptyString
  | String c r => if is_space c then lstrip r else s
  end.

(** [s.rstrip()] *)
Fixpoint rstrip (s : string) : string :=
  match s with
  | EmptyString => EmptyString
  | String c r =>
      match rstrip r with
      | EmptyString => if is_space c then EmptyString else String c EmptyString
      | r' => String c r'
      end
  end.

(** [s.strip()] *)
Definition strip (s : string) : string := rstrip (lstrip s).

(** Truth value of a string: [bool(s)]. *)
Definition truthy (s : string) : bool :=
  match s with EmptyString => false | _ => true end.

(** [s.startswith(p)] *)
Definition startswith (s p : string) : bool := String.prefix p s.

(** [sub in s] *)
Fixpoint contains (sub s : string) : bool :=
  (String.prefix sub s ||
   match s with
   | EmptyString => false
   | String _ r => contains sub r
   end)%bool.

(** [any(word in s for word in words)] *)
Definition any_in (words : list string) (s : string) : bool :=
  existsb (fun word => contains word s) words.

(** [s.split(sep)] for a non-empty separator: [cur] is the piece being
    read and [skip] counts the characters of a separator just found that
    remain to be passed over. *)
Fixpoint split_go (sep : string) (skip : nat) (cur : string) (s : string)
  : list string :=
  match skip with
  | S k =>
      match s with
      | EmptyString => [cur]
      | String _ r => split_go sep k cur r
      end
  | O =>
      match s with
      | EmptyString => [cur]
      | String c r =>
          if String.prefix sep s
          then cur :: split_go sep (Nat.pred (String.length sep)) EmptyString r
          else split_go sep O (cur +:+ String c EmptyString) r
      end
  end.

Definition split (sep s : string) : list string :=
  split_go sep O EmptyString s.

(** [s[:n]] *)
Definition take (n : nat) (s : string) : string := String.substring 0 n s.

(** [lst[-n:]] *)
Definition last_n {A} (n : nat) (l : list A) : list A :=
  skipn (List.length l - n) l.

End PyStr.

Import PyStr.

(** ** Calendar arithmetic of [datetime]

    A date is its proleptic Gregorian ordinal ([date.toordinal()]: day 1 is
    0001-01-01).  The conversions are those of the [datetime] module. *)

Module PyDate.

Definition MAXORDINAL : Z := 3652059.

Definition is_leap (y : Z) : bool :=
  ((y mod 4 =? 0) && (negb (y mod 100 =? 0) || (y mod 400 =? 0)))%bool.

Definition days_before_year (year : Z) : Z :=
  let y := year - 1 in
  y * 365 + y / 4 - y / 100 + y / 400.

Definition days_in_month (year month : Z) : Z :=
  if month =? 2 then (if is_leap year then 29 else 28)
  else if (month =? 4) || (month =? 6) || (month =? 9) || (month =? 11) then 30
  else 31.

Definition DAYS_BEFORE_MONTH (month : Z) : Z :=
  nth (Z.to_nat month) [0; 0; 31; 59; 90; 120; 151; 181; 212; 243; 273; 304; 334] 0.

Definition days_before_month (year month : Z) : Z :=
  DAYS_BEFORE_MONTH month + (if (2 <? month) && is_leap year then 1 else 0).

Definition ymd2ord (year month day : Z) : Z :=
  days_before_year year + days_before_month year month + day.

Definition DI400Y : Z := days_before_year 401.
Definition DI100Y : Z := days_before_year 101.
Definition DI4Y : Z := days_before_year 5.

Definition ord2ymd (ordinal : Z) : Z * Z * Z :=
  let n := ordinal - 1 in
  let n400 := n / DI400Y in
  let n := n mod DI400Y in
  let year := n400 * 400 + 1 in
  let n100 := n / DI100Y in
  let n := n mod DI100Y in
  let n4 := n / DI4Y in
  let n := n mod DI4Y in
  let n1 := n / 365 in
  let n := n mod 365 in
  let year := year + n100 * 100 + n4 * 4 + n1 in
  if (n1 =? 4) || (n100 =? 4) then (year - 1, 12, 31)
  else
    let leapyear := (n1 =? 3) && (negb (n4 =? 24) || (n100 =? 3)) in
    let month := Z.shiftr (n + 50) 5 in
    let preceding :=
      DAYS_BEFORE_MONTH month + (if (2 <? month) && leapyear then 1 else 0) in
    if n <? preceding then
      let month := month - 1 in
      let preceding :=
        preceding
        - (days_in_month 1 month + (if (month =? 2) && leapyear then 1 else 0)) in
      (year, month, n - preceding + 1)
    else (year, month, n - preceding + 1).

(** [date.weekday()]: Monday is 0 and Sunday is 6. *)
Definition weekday (ordinal : Z) : Z := (ordinal + 6) mod 7.

Definition digit (d : Z) : string :=
  String (ascii_of_nat (48 + Z.to_nat (d mod 10))) EmptyString.

Definition pad2 (n : Z) : string := digit (n / 10) +:+ digit n.

Definition pad4 (n : Z) : string :=
  digit (n / 1000) +:+ digit (n / 100) +:+ digit (n / 10) +:+ digit n.

(** [d.strftime('%Y-%m-%d')] *)
Definition strftime_ymd (ordinal : Z) : string :=
  let '(y, m, d) := ord2ymd ordinal in
  pad4 y +:+ "-" +:+ pad2 m +:+ "-" +:+ pad2 d.

End PyDate.

Import PyDate.

(** ** Data model *)

(** The three labels [classify_intent] can return. *)
Inductive Intent : Type :=
  | schedule_meeting
  | send_email
  | chitchat.

Global Instance Intent_eq_dec : EqDecision Intent.
Proof. solve_decision. Defined.

(** The Python string of an intent label. *)
Definition intent_name (i : Intent) : string :=
  match i with
  | schedule_meeting => "schedule_meeting"
  | send_email => "send_email"
  | chitchat => "chitchat"
  end.

(** The dictionary [self.conversation_state]; [s_intent = None] is
    Python's [None]. *)
Record ConversationState : Type := {
  s_intent : option Intent;
  s_entities : gmap string string;
  s_awaiting_confirmation : bool;
  s_pending_action : option (Intent * gmap string string);
  s_conversation_context : list string;
  s_gathering_info : bool;
  s_missing_fields : list string
}.

(** The state built by [__init__], by [reset_session] and by every
    "reset state completely" of [process_message]. *)
Definition fresh_state : ConversationState := {|
  s_intent := None;
  s_entities := ∅;
  s_awaiting_confirmation := false;
  s_pending_action := None;
  s_conversation_context := [];
  s_gathering_info := false;
  s_missing_fields := []
|}.

(** The three modes of the dialogue, read off the two flags in the order
    in which [process_message] tests them. *)
Inductive Mode : Type :=
  | idle
  | gathering
  | awaiting.

Definition mode (s : ConversationState) : Mode :=
  if s_awaiting_confirmation s then awaiting
  else if s_gathering_info s then gathering
  else idle.

(** One entry of a conversation file ([conversation_data]). *)
Record Conv : Type := {
  c_session_id : string;
  c_user_message : string;
  c_assistant_response : string;
  c_intent : option Intent;
  c_entities : gmap string string;
  c_awaiting_confirmation : bool;
  c_timestamp : string
}.

(** The payload of an executed action ([meeting_data], [email_data]);
    an [option] field is one the code reads with [entities.get(key)]. *)
Inductive ActionData : Type :=
  | MeetingData (title : string) (date time : option string)
                (participants : string) (created_at : string)
  | EmailData (recipient : option string) (subject : string)
              (body : option string) (created_at : string).

(** One entry of [conversations/actions.json] ([action_data_full]). *)
Record Action : Type := {
  a_session_id : string;
  a_action_type : string;
  a_action_data : ActionData;
  a_executed : bool;
  a_timestamp : string
}.

(** The files the assistant reads and writes: the conversation files by
    path, the global action log, and the outbox by path. *)
Record Files : Type := {
  conversations : gmap string (list Conv);
  actions : list Action;
  outbox : gmap string ActionData
}.

Definition no_files : Files :=
  {| conversations := ∅; actions := []; outbox := ∅ |}.

(** The assistant object: [self.api_key] is kept as its truth value. *)
Record Assistant : Type := {
  api_key : bool;
  session_id : string;
  conversation_file : string;
  conversation_state : ConversationState
}.

Definition with_state (a : Assistant) (s : ConversationState) : Assistant :=
  {| api_key := api_key a;
     session_id := session_id a;
     conversation_file := conversation_file a;
     conversation_state := s |}.

(** The regular expressions of [_regex_extract_meeting] and
    [_regex_extract_email], in the order of the source. *)
Inductive Pattern : Type :=
  | P_EMAIL_ADDRESS
  | P_TIME_HM_AMPM
  | P_TIME_H_AMPM
  | P_TIME_HM
  | P_MEETING_TITLE
  | P_SAYING
  | P_THAT
  | P_MESSAGE_COLON
  | P_EMAIL_BODY.

(** Library functions the source imports: module [re], [dateutil.parser],
    [json.dumps] and the [str()] of a dictionary.  [re_search] gives group
    0 and group 1 of the first match; [dateutil_parse] takes today's date,
    which the parser uses for the parts a string leaves out, and gives
    [None] where the parser raises. *)
Record Lib : Type := {
  re_findall : Pattern -> string -> list string;
  re_search : Pattern -> string -> option (string * string);
  dateutil_parse : Z -> string -> option Z;
  json_dumps : gmap string string -> string;
  dict_repr : gmap string string -> string
}.

(** What one turn meets outside the process: the reply of the Gemini
    endpoint to a prompt ([None] for a timeout, a request error, a status
    other than 200 or a reply without candidates), the clock, and whether
    each file operation succeeds: reading an existing conversation file,
    writing it, reading back and rewriting the action log, writing a file
    of the outbox. *)
Record World : Type := {
  gemini_post : string -> option string;
  today : Z;
  now_stamp : string;
  now_iso : string;
  conversation_read_ok : bool;
  conversation_write_ok : bool;
  actions_write_ok : bool;
  outbox_write_ok : bool
}.

Section Assistant.

Context (L : Lib).

(** ** Storage *)

Definition conversation_path (a : Assistant) : string :=
  "conversations/" +:+ conversation_file a.

(** [save_conversation]: a failure is printed and otherwise ignored. *)
Definition save_conversation (w : World) (a : Assistant) (fs : Files)
    (user_message assistant_response : string) (intent : option Intent)
    (entities : gmap string string) (awaiting_confirmation : bool) : Files :=
  let conversation_data := {|
    c_session_id := session_id a;
    c_user_message := user_message;
    c_assistant_response := assistant_response;
    c_intent := intent;
    c_entities := entities;
    c_awaiting_confirmation := awaiting_confirmation;
    c_timestamp := now_iso w |} in
  let readable :=
    match conversations fs !! conversation_path a with
    | Some _ => conversation_read_ok w
    | None => true
    end in
  if readable && conversation_write_ok w then
    let existing := default [] (conversations fs !! conversation_path a) in
    {| conversations :=
         <[conversation_path a := (existing ++ [conversation_data])%list]>
           (conversations fs);
       actions := actions fs;
       outbox := outbox fs |}
  else fs.

(** [get_conversation_history]: the last [limit] entries of the file, and
    the empty list when there is no file or reading fails. *)
Definition get_conversation_history (w : World) (a : Assistant) (fs : Files)
    (limit : nat) : list Conv :=
  if conversation_read_ok w then
    match conversations fs !! conversation_path a with
    | None => []
    | Some convs => last_n limit convs
    end
  else [].

(** [save_action]: a failure is printed and otherwise ignored. *)
Definition save_action (w : World) (a : Assistant) (fs : Files)
    (action_type : string) (action_data : ActionData) (executed : bool)
    : Files :=
  let action_data_full := {|
    a_session_id := session_id a;
    a_action_type := action_type;
    a_action_data := action_data;
    a_executed := executed;
    a_timestamp := now_iso w |} in
  if actions_write_ok w then
    {| conversations := conversations fs;
       actions := (actions fs ++ [action_data_full])%list;
       outbox := outbox fs |}
  else fs.

(** ** The language backend *)

(** [_fallback_response] *)
Definition _fallback_response (prompt : string) : string :=
  let user_input :=
    if contains "User input:" prompt
    then strip (List.last (split "User input:" prompt) EmptyString)
    else prompt in
  if any_in ["book"; "schedule"; "meeting"; "appointment"] (lower user_input)
  then "INTENT: schedule_meeting"
  else if any_in ["send"; "email"; "mail"; "message"] (lower user_input)
  then "INTENT: send_email"
  else "INTENT: chitchat".

(** [call_gemini] *)
Definition call_gemini (w : World) (a : Assistant) (prompt : string) : string :=
  if negb (api_key a) then _fallback_response prompt
  else
    match gemini_post w prompt with
    | Some content => strip content
    | None => _fallback_response prompt
    end.

Definition meeting_keywords : list string :=
  ["book"; "schedule"; "meeting"; "appointment"; "call"].

Definition email_keywords : list string :=
  ["send"; "email"; "mail"; "message"].

Definition intent_change_prompt (user_input : string) (current_intent : Intent)
    : string :=
"
            Current task: "
  +:+ intent_name current_intent
  +:+ "
            User input: "
  +:+ dq
  +:+ user_input
  +:+ dq
  +:+ "
            
            Is the user trying to switch to a different task? Consider:
            - If they were scheduling a meeting but now want to send an email
            - If they were sending an email but now want to schedule a meeting
            - Phrases like "
  +:+ dq
  +:+ "actually"
  +:+ dq
  +:+ ", "
  +:+ dq
  +:+ "instead"
  +:+ dq
  +:+ ", "
  +:+ dq
  +:+ "no"
  +:+ dq
  +:+ ", "
  +:+ dq
  +:+ "sorry"
  +:+ dq
  +:+ ", "
  +:+ dq
  +:+ "wait"
  +:+ dq
  +:+ "
            
            Answer only: YES or NO
            ".

(** [detect_intent_change] *)
Definition detect_intent_change (w : World) (a : Assistant)
    (user_input : string) (current_intent : option Intent) : bool :=
  match current_intent with
  | None => false
  | Some current =>
      if bool_decide (current = send_email)
         && any_in meeting_keywords (lower user_input) then true
      else if bool_decide (current = schedule_meeting)
              && any_in email_keywords (lower user_input) then true
      else if api_key a then
        let response := call_gemini w a (intent_change_prompt user_input current) in
        if contains "yes" (lower response) then true else false
      else false
  end.

(** The text [classify_intent] builds from the last three of the five
    most recent exchanges. *)
Definition classify_context (history : list Conv) : string :=
  match history with
  | [] => EmptyString
  | _ =>
      fold_left
        (fun context conv =>
           context +:+ "User: " +:+ c_user_message conv +:+ nl
                   +:+ "Assistant: " +:+ c_assistant_response conv +:+ nl)
        (last_n 3 history)
        (nl +:+ nl +:+ "Recent conversation context:" +:+ nl)
  end.

Definition classify_prompt (context user_input : string) : string :=
"
        Classify the following user input into one of these intents:
        1. schedule_meeting - user wants to book/schedule a meeting
        2. send_email - user wants to send an email
        3. chitchat - general conversation, greetings, or other topics
        
        Consider the conversation context to understand if the user is providing missing information for a previous request.
        Also look for intent switching - if they were doing one task but now want to do another.
        "
  +:+ context
  +:+ "
        
        Current user input: "
  +:+ user_input
  +:+ "
        
        Respond with only the intent name (schedule_meeting, send_email, or chitchat).
        ".

(** [classify_intent] *)
Definition classify_intent (w : World) (a : Assistant) (fs : Files)
    (user_input : string) : Intent :=
  let history := get_conversation_history w a fs 5 in
  let context := classify_context history in
  let response := call_gemini w a (classify_prompt context user_input) in
  if contains "schedule_meeting" (lower response) then schedule_meeting
  else if contains "send_email" (lower response) then send_email
  else chitchat.

(** ** Entity extraction *)

(** The test [value and value != "N/A" and value.strip()] of
    [extract_entities_with_context]. *)
Definition usable_value (value : string) : bool :=
  truthy value && negb (String.eqb value "N/A") && truthy (strip value).

(** The body of the loop over the history in
    [extract_entities_with_context]: the pair is
    [(previous_entities, context_info)]. *)
Definition absorb_conv (intent : Intent)
    (acc : gmap string string * string) (conv : Conv)
    : gmap string string * string :=
  let '(previous_entities, context_info) := acc in
  if bool_decide (c_intent conv = Some intent)
     && bool_decide (c_entities conv ≠ ∅)
  then
    (filter (fun kv => usable_value kv.2 = true) (c_entities conv)
       ∪ previous_entities,
     context_info +:+ "User: " +:+ c_user_message conv +:+ nl
                  +:+ "Previous entities: " +:+ dict_repr L (c_entities conv)
                  +:+ nl)
  else acc.

(** [previous_entities] and [context_info] as
    [extract_entities_with_context] computes them from the history. *)
Definition previous_of_history (intent : Intent) (history : list Conv)
    : gmap string string * string :=
  match history with
  | [] => (∅, EmptyString)
  | _ =>
      fold_left (absorb_conv intent) history
        (∅, nl +:+ nl +:+ "Previous conversation context:" +:+ nl)
  end.

(** [line.split(tag)[1].strip()] for a line that starts with [tag]. *)
Definition after_tag (tag line : string) : string :=
  strip (nth 1 (split tag line) EmptyString).

Definition tagged (tag line : string) : bool :=
  startswith line tag && truthy (after_tag tag line).

(** [', '.join(items)] *)
Definition join_comma (items : list string) : string :=
  String.concat ", " items.

(** [_parse_date] *)
Definition _parse_date (w : World) (date_str : string) : string :=
  let date_str := strip (lower date_str) in
  if String.eqb date_str "today" then strftime_ymd (today w)
  else if String.eqb date_str "tomorrow" then strftime_ymd (today w + 1)
  else if contains "next week" date_str then strftime_ymd (today w + 7)
  else if contains "monday" date_str then
    let days_ahead := 0 - weekday (today w) in
    let days_ahead := if days_ahead <=? 0 then days_ahead + 7 else days_ahead in
    strftime_ymd (today w + days_ahead)
  else
    match dateutil_parse L (today w) date_str with
    | Some parsed_date => strftime_ymd parsed_date
    | None => date_str
    end.

(** [_regex_extract_meeting] *)
Definition _regex_extract_meeting (text : string) : gmap string string :=
  let entities : gmap string string := ∅ in
  let emails := re_findall L P_EMAIL_ADDRESS text in
  let entities :=
    match emails with
    | [] => entities
    | _ => <["participants" := join_comma emails]> entities
    end in
  let entities :=
    match re_search L P_TIME_HM_AMPM text with
    | Some m => <["time" := m.1]> entities
    | None =>
        match re_search L P_TIME_H_AMPM text with
        | Some m => <["time" := m.1]> entities
        | None =>
            match re_search L P_TIME_HM text with
            | Some m => <["time" := m.1]> entities
            | None => entities
            end
        end
    end in
  let entities :=
    if contains "tomorrow" (lower text) then <["date" := "tomorrow"]> entities
    else if contains "today" (lower text) then <["date" := "today"]> entities
    else if contains "next week" (lower text) then <["date" := "next week"]> entities
    else entities in
  match re_search L P_MEETING_TITLE text with
  | Some title_match =>
      let title := strip title_match.2 in
      if truthy title
         && negb (any_in ["tomorrow"; "today"; "at"; "with"] (lower title))
      then <["title" := title]> entities
      else entities
  | None => entities
  end.

(** [_regex_extract_email] *)
Definition _regex_extract_email (text : string) : gmap string string :=
  let entities : gmap string string := ∅ in
  let emails := re_findall L P_EMAIL_ADDRESS text in
  let entities :=
    match emails with
    | [] => entities
    | first :: _ => <["recipient" := first]> entities
    end in
  match re_search L P_SAYING text with
  | Some m => <["body" := strip m.2]> entities
  | None =>
      match re_search L P_THAT text with
      | Some m => <["body" := strip m.2]> entities
      | None =>
          match re_search L P_MESSAGE_COLON text with
          | Some m => <["body" := strip m.2]> entities
          | None =>
              match re_search L P_EMAIL_BODY text with
              | Some m => <["body" := strip m.2]> entities
              | None => entities
              end
          end
      end
  end.

Definition meeting_prompt (user_input context : string)
    (previous_entities : gmap string string) : string :=
"
        Extract meeting information from the current user input, considering the conversation context.
        
        "
  +:+ context
  +:+ "
        
        Current user input: "
  +:+ dq
  +:+ user_input
  +:+ dq
  +:+ "
        Previous entities found: "
  +:+ json_dumps L previous_entities
  +:+ "
        
        Look for:
        - Title/subject of the meeting
        - Date (today, tomorrow, specific dates, days of week)
        - Time (3pm, 15:00, etc.)
        - Participants/attendees (names, email addresses)
        
        If the user is just providing a missing piece of information (like just an email address or just a time), 
        extract only that new information. Don't repeat information that was already provided.
        
        Return in this exact format:
        TITLE: [meeting title if mentioned, or leave empty]
        DATE: [date if mentioned, or leave empty]
        TIME: [time if mentioned, or leave empty]
        PARTICIPANTS: [participants if mentioned, or leave empty]
        ".

(** One line of the reply to the meeting prompt. *)
Definition read_meeting_line (entities : gmap string string) (line : string)
    : gmap string string :=
  let line := strip line in
  if tagged "TITLE:" line then <["title" := after_tag "TITLE:" line]> entities
  else if tagged "DATE:" line then <["date" := after_tag "DATE:" line]> entities
  else if tagged "TIME:" line then <["time" := after_tag "TIME:" line]> entities
  else if tagged "PARTICIPANTS:" line
  then <["participants" := after_tag "PARTICIPANTS:" line]> entities
  else entities.

(** [_extract_meeting_entities_with_context] *)
Definition _extract_meeting_entities_with_context (w : World) (a : Assistant)
    (user_input context : string) (previous_entities : gmap string string)
    : gmap string string :=
  let response :=
    call_gemini w a (meeting_prompt user_input context previous_entities) in
  let entities :=
    if api_key a && negb (startswith response "INTENT:")
    then fold_left read_meeting_line (split nl response) ∅
    else _regex_extract_meeting user_input in
  match entities !! "date" with
  | Some d => <["date" := _parse_date w d]> entities
  | None => entities
  end.

Definition email_prompt (user_input context : string)
    (previous_entities : gmap string string) : string :=
"
        Extract email information from the current user input, considering the conversation context.
        
        "
  +:+ context
  +:+ "
        
        Current user input: "
  +:+ dq
  +:+ user_input
  +:+ dq
  +:+ "
        Previous entities found: "
  +:+ json_dumps L previous_entities
  +:+ "
        
        Look for:
        - Recipient email address or name
        - Email body/message content
        - Subject (optional)
        
        If the user is just providing a missing piece of information (like just an email address or just a message), 
        extract only that new information. Don't repeat information that was already provided.
        
        Return in this exact format:
        RECIPIENT: [email address or name if mentioned, or leave empty]
        SUBJECT: [subject line if mentioned, or leave empty]
        BODY: [email content/message if mentioned, or leave empty]
        ".

(** One line of the reply to the email prompt. *)
Definition read_email_line (entities : gmap string string) (line : string)
    : gmap string string :=
  let line := strip line in
  if tagged "RECIPIENT:" line
  then <["recipient" := after_tag "RECIPIENT:" line]> entities
  else if tagged "SUBJECT:" line
  then <["subject" := after_tag "SUBJECT:" line]> entities
  else if tagged "BODY:" line then <["body" := after_tag "BODY:" line]> entities
  else entities.

(** [_extract_email_entities_with_context] *)
Definition _extract_email_entities_with_context (w : World) (a : Assistant)
    (user_input context : string) (previous_entities : gmap string string)
    : gmap string string :=
  let response :=
    call_gemini w a (email_prompt user_input context previous_entities) in
  if api_key a && negb (startswith response "INTENT:")
  then fold_left read_email_line (split nl response) ∅
  else _regex_extract_email user_input.

(** The entities the current input yields, before the merge. *)
Definition extracted_entities (w : World) (a : Assistant)
    (user_input : string) (intent : Intent)
    (context_info : string) (previous_entities : gmap string string)
    : gmap string string :=
  match intent with
  | schedule_meeting =>
      _extract_meeting_entities_with_context w a user_input context_info
        previous_entities
  | send_email =>
      _extract_email_entities_with_context w a user_input context_info
        previous_entities
  | chitchat => ∅
  end.

(** [merged_entities = previous_entities.copy();
     merged_entities.update(entities)] *)
Definition merge_entities (previous_entities entities : gmap string string)
    : gmap string string :=
  entities ∪ previous_entities.

(** [extract_entities_with_context] *)
Definition extract_entities_with_context (w : World) (a : Assistant)
    (fs : Files) (user_input : string) (intent : Intent)
    : gmap string string :=
  let history := get_conversation_history w a fs 5 in
  let '(previous_entities, context_info) := previous_of_history intent history in
  let entities :=
    extracted_entities w a user_input intent context_info previous_entities in
  merge_entities previous_entities entities.

(** ** Field schema *)

(** [not entities.get(key) or not entities.get(key).strip()] *)
Definition blank (entities : gmap string string) (key : string) : bool :=
  match entities !! key with
  | None => true
  | Some value => negb (truthy value) || negb (truthy (strip value))
  end.

(** [if blank: missing.append(key)] *)
Definition append_if_blank (entities : gmap string string) (key : string)
    (missing : list string) : list string :=
  if blank entities key then (missing ++ [key])%list else missing.

(** [get_missing_fields] *)
Definition get_missing_fields (intent : Intent) (entities : gmap string string)
    : list string :=
  let missing : list string := [] in
  match intent with
  | schedule_meeting =>
      let missing := append_if_blank entities "title" missing in
      let missing := append_if_blank entities "date" missing in
      let missing := append_if_blank entities "time" missing in
      let missing := append_if_blank entities "participants" missing in
      missing
  | send_email =>
      let missing := append_if_blank entities "recipient" missing in
      let missing := append_if_blank entities "body" missing in
      missing
  | chitchat => missing
  end.

Definition meeting_questions : gmap string string :=
  list_to_map
    [("title", "What should I call this meeting?");
     ("date", "What date would you like to schedule this meeting?");
     ("time", "What time should the meeting be?");
     ("participants",
      "Who should I invite to this meeting? Please provide their email addresses.")].

Definition email_questions : gmap string string :=
  list_to_map
    [("recipient",
      "Who should I send the email to? Please provide their email address.");
     ("body", "What should the email say?")].

(** [get_next_missing_field_question] *)
Definition get_next_missing_field_question (intent : Intent)
    (missing_fields : list string) : option string :=
  match missing_fields with
  | [] => None
  | field :: _ =>
      match intent with
      | schedule_meeting => meeting_questions !! field
      | send_email => email_questions !! field
      | chitchat => None
      end
  end.

(** [generate_confirmation] *)
Definition generate_confirmation (intent : Intent)
    (entities : gmap string string) : string :=
  match intent with
  | schedule_meeting =>
      let title := default "Meeting" (entities !! "title") in
      let date := default "unspecified date" (entities !! "date") in
      let time := default "unspecified time" (entities !! "time") in
      let participants := default EmptyString (entities !! "participants") in
      let confirmation :=
        "Do you want me to book '" +:+ title +:+ "' on " +:+ date
          +:+ " at " +:+ time in
      let confirmation :=
        if truthy participants
        then confirmation +:+ " with " +:+ participants
        else confirmation in
      confirmation +:+ "?"
  | send_email =>
      let recipient := default "unspecified recipient" (entities !! "recipient") in
      let body := default "unspecified message" (entities !! "body") in
      let subject := default EmptyString (entities !! "subject") in
      let confirmation := "Do you want me to send an email to " +:+ recipient in
      let confirmation :=
        if truthy subject
        then confirmation +:+ " with subject '" +:+ subject +:+ "'"
        else confirmation in
      confirmation +:+ " saying: '" +:+ body +:+ "'?"
  | chitchat => "Do you want me to proceed with this action?"
  end.

(** ** Action executor *)

(** How an f-string prints a value read with [entities.get(key)]. *)
Definition fmt_opt (value : option string) : string := default "None" value.

(** [execute_action].  The first component is the returned message, or
    [None] when the write to the outbox raises: that [open] is outside any
    [try]. *)
Definition execute_action (w : World) (a : Assistant) (fs : Files)
    (intent : option Intent) (entities : gmap string string)
    : option string * Files :=
  let timestamp := now_stamp w in
  match intent with
  | Some schedule_meeting =>
      let meeting_data :=
        MeetingData (default "Meeting" (entities !! "title"))
                    (entities !! "date") (entities !! "time")
                    (default EmptyString (entities !! "participants"))
                    (now_iso w) in
      let fs := save_action w a fs "meeting" meeting_data true in
      let filename := "outbox/meeting_" +:+ timestamp +:+ ".json" in
      if outbox_write_ok w then
        (Some ("✅ Meeting '" +:+ default "Meeting" (entities !! "title")
               +:+ "' has been booked for " +:+ fmt_opt (entities !! "date")
               +:+ " at " +:+ fmt_opt (entities !! "time")
               +:+ ". Details saved to files."),
         {| conversations := conversations fs;
            actions := actions fs;
            outbox := <[filename := meeting_data]> (outbox fs) |})
      else (None, fs)
  | Some send_email =>
      let email_data :=
        EmailData (entities !! "recipient")
                  (default "No subject" (entities !! "subject"))
                  (entities !! "body") (now_iso w) in
      let fs := save_action w a fs "email" email_data true in
      let filename := "outbox/email_" +:+ timestamp +:+ ".json" in
      if outbox_write_ok w then
        (Some ("✅ Email sent to " +:+ fmt_opt (entities !! "recipient")
               +:+ ". Details saved to files."),
         {| conversations := conversations fs;
            actions := actions fs;
            outbox := <[filename := email_data]> (outbox fs) |})
      else (None, fs)
  | _ => (Some "Action completed.", fs)
  end.

(** ** The turn function *)

(** [_handle_chitchat] *)
Definition _handle_chitchat (message : string) : string :=
  let greetings :=
    ["hello"; "hi"; "hey"; "good morning"; "good afternoon"; "good evening"] in
  if any_in greetings (lower message)
  then "Hello! I can help you schedule meetings or send emails. What would you like to do?"
  else "I'm here to help you schedule meetings and send emails. What can I do for you?".

Definition affirmative_tokens : list string :=
  ["yes"; "y"; "confirm"; "ok"; "okay"; "sure"].

Definition negative_tokens : list string :=
  ["no"; "n"; "cancel"; "nevermind"].

(** [word in tokens] for a list of strings. *)
Definition among (tokens : list string) (word : string) : bool :=
  existsb (String.eqb word) tokens.

(** The "intent switching" block of [process_message]: the state with
    which the classification that follows starts. *)
Definition after_switch_check (w : World) (a : Assistant) (message : string)
    : Assistant :=
  let s := conversation_state a in
  let current_intent := s_intent s in
  if bool_decide (current_intent ≠ None)
     && (s_gathering_info s || s_awaiting_confirmation s)
  then
    if detect_intent_change w a message current_intent
    then with_state a fresh_state
    else a
  else a.

(** [process_message] from "Classify intent" to its end.  The result is
    the response, [None] standing for an exception, with the assistant and
    the files as the call leaves them. *)
Definition classify_and_respond (w : World) (a : Assistant) (fs : Files)
    (message : string) : option string * Assistant * Files :=
  let s := conversation_state a in
  let intent := classify_intent w a fs message in
  let s := {| s_intent := Some intent;
              s_entities := s_entities s;
              s_awaiting_confirmation := s_awaiting_confirmation s;
              s_pending_action := s_pending_action s;
              s_conversation_context := s_conversation_context s;
              s_gathering_info := s_gathering_info s;
              s_missing_fields := s_missing_fields s |} in
  if bool_decide (intent = chitchat) then
    let response := _handle_chitchat message in
    let fs := save_conversation w a fs message response (Some intent) ∅ false in
    (Some response, with_state a s, fs)
  else
    let entities := extract_entities_with_context w a fs message intent in
    let missing_fields := get_missing_fields intent entities in
    let s := {| s_intent := s_intent s;
                s_entities := entities;
                s_awaiting_confirmation := s_awaiting_confirmation s;
                s_pending_action := s_pending_action s;
                s_conversation_context := s_conversation_context s;
                s_gathering_info := s_gathering_info s;
                s_missing_fields := missing_fields |} in
    let confirm (s : ConversationState) :=
      let confirmation := generate_confirmation intent entities in
      let s := {| s_intent := s_intent s;
                  s_entities := s_entities s;
                  s_awaiting_confirmation := true;
                  s_pending_action := Some (intent, entities);
                  s_conversation_context := s_conversation_context s;
                  s_gathering_info := false;
                  s_missing_fields := s_missing_fields s |} in
      let fs :=
        save_conversation w a fs message confirmation (Some intent) entities true in
      (Some confirmation, with_state a s, fs) in
    match missing_fields with
    | _ :: _ =>
        let s := {| s_intent := s_intent s;
                    s_entities := s_entities s;
                    s_awaiting_confirmation := s_awaiting_confirmation s;
                    s_pending_action := s_pending_action s;
                    s_conversation_context := s_conversation_context s;
                    s_gathering_info := true;
                    s_missing_fields := s_missing_fields s |} in
        match get_next_missing_field_question intent missing_fields with
        | Some missing_field_question =>
            let fs :=
              save_conversation w a fs message missing_field_question
                (Some intent) entities false in
            (Some missing_field_question, with_state a s, fs)
        | None => confirm s
        end
    | [] => confirm s
    end.

(** [process_message] *)
Definition process_message (w : World) (a : Assistant) (fs : Files)
    (message : string) : option string * Assistant * Files :=
  let s := conversation_state a in
  if s_awaiting_confirmation s
     && among affirmative_tokens (strip (lower message))
  then
    match execute_action w a fs (s_intent s) (s_entities s) with
    | (Some result, fs) =>
        let fs :=
          save_conversation w a fs message result (s_intent s) (s_entities s)
            false in
        (Some result, with_state a fresh_state, fs)
    | (None, fs) => (None, a, fs)
    end
  else if s_awaiting_confirmation s
          && among negative_tokens (strip (lower message))
  then
    let response := "Action cancelled. How else can I help you?" in
    let fs := save_conversation w a fs message response None ∅ false in
    (Some response, with_state a fresh_state, fs)
  else
    classify_and_respond w (after_switch_check w a message) fs message.

(** [conversation_file] for a session identifier. *)
Definition file_of_session (uuid : string) : string :=
  "conversations_" +:+ take 8 uuid +:+ ".json".

(** [__init__], given whether an API key is configured and the identifier
    [uuid.uuid4()] draws. *)
Definition new_assistant (key : bool) (uuid : string) : Assistant :=
  {| api_key := key;
     session_id := uuid;
     conversation_file := file_of_session uuid;
     conversation_state := fresh_state |}.

(** [reset_session], given the identifier [uuid.uuid4()] draws. *)
Definition reset_session (a : Assistant) (uuid : string) : Assistant :=
  {| api_key := api_key a;
     session_id := uuid;
     conversation_file := file_of_session uuid;
     conversation_state := fresh_state |}.

End Assistant.

(** ** Sessions *)

(** The assistants and files that a run of the program can reach: a newly
    built assistant over whatever files exist, then any sequence of turns
    and of "New Chat" resets. *)
Inductive reachable (L : Lib) : Assistant -> Files -> Prop :=
  | reach_new key uuid fs :
      reachable L (new_assistant key uuid) fs
  | reach_turn a fs w message response a' fs' :
      reachable L a fs ->
      process_message L w a fs message = (response, a', fs') ->
      reachable L a' fs'
  | reach_reset a fs uuid :
      reachable L a fs ->
      reachable L (reset_session a uuid) fs.

(** The state after a sequence of turns, each with its own world. *)
Definition run_turns (L : Lib) (turns : list (World * string))
    (start : Assistant * Files) : Assistant * Files :=
  fold_left
    (fun af turn =>
       let '(_, a', fs') := process_message L turn.1 af.1 af.2 turn.2 in
       (a', fs'))
    turns start.

(** Every character of the string is white space. *)
Fixpoint whitespace_only (s : string) : bool :=
  match s with
  | EmptyString => true
  | String c r => is_space c && whitespace_only r
  end.

(** The first character of [sub], if any, is not white space. *)
Definition starts_solid (sub : string) : bool :=
  match sub with
  | EmptyString => true
  | String c _ => negb (is_space c)
  end.

(** The last character of [sub], if any, is not white space. *)
Fixpoint ends_solid (sub : string) : bool :=
  match sub with
  | EmptyString => true
  | String c EmptyString => negb (is_space c)
  | String _ r => ends_solid r
  end.

(** The first Monday strictly after the day [d]. *)
Definition next_monday_after (d : Z) : Z := d + (7 - weekday d).

(** The required fields of an intent, in schema order. *)
Definition required_fields (intent : Intent) : list string :=
  match intent with
  | schedule_meeting => ["title"; "date"; "time"; "participants"]
  | send_email => ["recipient"; "body"]
  | chitchat => []
  end.

(** The question table of an intent. *)
Definition questions (intent : Intent) : gmap string string :=
  match intent with
  | schedule_meeting => meeting_questions
  | send_email => email_questions
  | chitchat => ∅
  end.

(** The value of [key] in the latest entry of [history] that was recorded
    for [intent] and holds a usable value for [key]. *)
Fixpoint latest_usable (intent : Intent) (key : string) (history : list Conv)
    : option string :=
  match history with
  | [] => None
  | conv :: rest =>
      match latest_usable intent key rest with
      | Some value => Some value
      | None =>
          if bool_decide (c_intent conv = Some intent) then
            match c_entities conv !! key with
            | Some value => if usable_value value then Some value else None
            | None => None
            end
          else None
      end
  end.

(** ** Concrete instances for the examples *)

(** A library in which no pattern matches and no date string parses. *)
Definition plain_lib : Lib := {|
  re_findall := fun _ _ => [];
  re_search := fun _ _ => None;
  dateutil_parse := fun _ _ => None;
  json_dumps := fun _ => "{}";
  dict_repr := fun _ => "{}"
|}.

(** A world on the given day in which the endpoint answers by [reply] and
    every file operation succeeds. *)
Definition world_on (day : Z) (reply : string -> option string) : World := {|
  gemini_post := reply;
  today := day;
  now_stamp := "20240305_101500";
  now_iso := "2024-03-05T10:15:00";
  conversation_read_ok := true;
  conversation_write_ok := true;
  actions_write_ok := true;
  outbox_write_ok := true
|}.

Definition no_reply : string -> option string := fun _ => None.

(** Tuesday 5 March 2024, the endpoint unreachable. *)
Definition tuesday_world : World := world_on (ymd2ord 2024 3 5) no_reply.

(** Monday 4 March 2024, the endpoint unreachable. *)
Definition monday_world : World := world_on (ymd2ord 2024 3 4) no_reply.

(** An endpoint that answers the task-switch question by [switch], the
    classification prompt by [label] and the extraction prompts by
    [fields]. *)
Definition scripted_reply (switch label fields : string)
    : string -> option string :=
  fun prompt =>
    if contains "Is the user trying to switch" prompt then Some switch
    else if contains "Classify the following user input" prompt then Some label
    else Some fields.

(** A world in which writing to the outbox fails. *)
Definition outbox_down_world : World := {|
  gemini_post := no_reply;
  today := ymd2ord 2024 3 5;
  now_stamp := "20240305_101500";
  now_iso := "2024-03-05T10:15:00";
  conversation_read_ok := true;
  conversation_write_ok := true;
  actions_write_ok := true;
  outbox_write_ok := false
|}.

(** An assistant with an API key, just started. *)
Definition keyed_assistant : Assistant :=
  new_assistant true "3f2b9c1e-7a4d-4e0b-9d57-1c2a6f8e0b11".

(** A complete field map for a meeting. *)
Definition full_meeting_fields : gmap string string :=
  <["title" := "Budget review"]>
    (<["date" := "2024-03-06"]>
       (<["time" := "3pm"]> (<["participants" := "sam@example.com"]> ∅))).

(** The endpoint reads an email request with recipient and body. *)
Definition email_turn_world : World :=
  world_on (ymd2ord 2024 3 5)
    (scripted_reply "NO" "send_email"
       ("RECIPIENT: bob@example.com" +:+ nl +:+ "SUBJECT:" +:+ nl
        +:+ "BODY: hello")).

(** The endpoint sees no task switch and reads a meeting request with a
    title only. *)
Definition meeting_turn_world : World :=
  world_on (ymd2ord 2024 3 5)
    (scripted_reply "NO" "schedule_meeting"
       ("TITLE: lunch with Sam" +:+ nl +:+ "DATE:" +:+ nl +:+ "TIME:" +:+ nl
        +:+ "PARTICIPANTS:")).

(** The endpoint sees small talk and no task switch. *)
Definition chitchat_turn_world : World :=
  world_on (ymd2ord 2024 3 5) (scripted_reply "NO" "chitchat" EmptyString).

(** The endpoint reads an email request without any field. *)
Definition bare_email_turn_world : World :=
  world_on (ymd2ord 2024 3 5)
    (scripted_reply "NO" "send_email"
       ("RECIPIENT:" +:+ nl +:+ "SUBJECT:" +:+ nl +:+ "BODY:")).

(** ** Vocabulary of the statements *)

(** The state with its intent replaced: [conversation_state["intent"] =
    intent]. *)
Definition set_intent (s : ConversationState) (intent : Intent)
    : ConversationState :=
  {| s_intent := Some intent;
     s_entities := s_entities s;
     s_awaiting_confirmation := s_awaiting_confirmation s;
     s_pending_action := s_pending_action s;
     s_conversation_context := s_conversation_context s;
     s_gathering_info := s_gathering_info s;
     s_missing_fields := s_missing_fields s |}.

(** The text of the turn is read as a yes or as a no. *)
Definition is_affirmative (message : string) : Prop :=
  In (strip (lower message)) ["yes"; "y"; "confirm"; "ok"; "okay"; "sure"].

Definition is_negative (message : string) : Prop :=
  In (strip (lower message)) ["no"; "n"; "cancel"; "nevermind"].

(** What a turn that reaches the classification can do to the state [s]:
    small talk changes the intent only; a task with missing fields raises
    the gathering flag; a task with all its fields raises the confirmation
    flag and lowers the gathering flag. *)
Definition classified_from (s s' : ConversationState) : Prop :=
  (s' = set_intent s chitchat)
  \/ (exists intent,
        intent <> chitchat /\ s_intent s' = Some intent
        /\ s_gathering_info s' = true
        /\ s_awaiting_confirmation s' = s_awaiting_confirmation s
        /\ get_missing_fields intent (s_entities s') <> []
        /\ s_missing_fields s' = get_missing_fields intent (s_entities s'))
  \/ (exists intent,
        intent <> chitchat /\ s_intent s' = Some intent
        /\ s_gathering_info s' = false
        /\ s_awaiting_confirmation s' = true
        /\ get_missing_fields intent (s_entities s') = []
        /\ s_missing_fields s' = []
        /\ s_pending_action s' = Some (intent, s_entities s')).

(** The relation of [mode] and committed intent that every reachable
    state satisfies. *)
Definition mode_intent_inv (s : ConversationState) : Prop :=
  (s_intent s = None /\ s_awaiting_confirmation s = false
   /\ s_gathering_info s = false)
  \/ s_intent s = Some chitchat
  \/ (exists intent,
        intent <> chitchat /\ s_intent s = Some intent
        /\ (s_gathering_info s = true \/ s_awaiting_confirmation s = true)).

(** The session after the single turn "email bob@example.com saying
    hello": the email is complete and awaits its confirmation. *)
Definition awaiting_email_session : Assistant * Files :=
  run_turns plain_lib
    [(email_turn_world, "email bob@example.com saying hello")]
    (keyed_assistant, no_files).

(** The endpoint reads an email request with a recipient only. *)
Definition recipient_turn_world : World :=
  world_on (ymd2ord 2024 3 5)
    (scripted_reply "NO" "send_email"
       ("RECIPIENT: bob@example.com" +:+ nl +:+ "SUBJECT:" +:+ nl
        +:+ "BODY:")).

(** The session after "send an email to bob@example.com": the body is
    still to be asked for. *)
Definition gathering_email_session : Assistant * Files :=
  run_turns plain_lib
    [(recipient_turn_world, "send an email to bob@example.com")]
    (keyed_assistant, no_files).

(** The endpoint reads a meeting request with every field. *)
Definition full_meeting_turn_world : World :=
  world_on (ymd2ord 2024 3 5)
    (scripted_reply "NO" "schedule_meeting"
       ("TITLE: sync with Sam" +:+ nl +:+ "DATE: tomorrow" +:+ nl
        +:+ "TIME: 3pm" +:+ nl +:+ "PARTICIPANTS: sam@example.com")).

(** The session after the single small-talk turn "hello there". *)
Definition greeted_session : Assistant * Files :=
  run_turns plain_lib [(chitchat_turn_world, "hello there")]
    (keyed_assistant, no_files).

(** The session after "email bob@example.com saying hello" and then "also
    set up lunch with Sam", read as a meeting request with a title only. *)
Definition stale_confirmation_session : Assistant * Files :=
  run_turns plain_lib
    [(email_turn_world, "email bob@example.com saying hello");
     (meeting_turn_world, "also set up lunch with Sam")]
    (keyed_assistant, no_files).

(** The session after "send an email to bob@example.com" and five turns
    of small talk. *)
Definition long_pause_session : Assistant * Files :=
  run_turns plain_lib
    [(recipient_turn_world, "send an email to bob@example.com");
     (chitchat_turn_world, "how are you");
     (chitchat_turn_world, "nice weather");
     (chitchat_turn_world, "what can you do");
     (chitchat_turn_world, "thanks");
     (chitchat_turn_world, "one moment")]
    (keyed_assistant, no_files).

(** The whole conversation file of a session. *)
Definition conversation_log (af : Assistant * Files) : list Conv :=
  default [] (conversations af.2 !! conversation_path af.1).

(** With the confirmation flag up and the gathering flag down, the
    committed intent has all its required fields. *)
Definition confirmation_inv (s : ConversationState) : Prop :=
  s_awaiting_confirmation s = true ->
  s_gathering_info s = false ->
  match s_intent s with
  | Some intent => get_missing_fields intent (s_entities s) = []
  | None => True
  end.

(** The endpoint reads an email request with a body only. *)
Definition body_turn_world : World :=
  world_on (ymd2ord 2024 3 5)
    (scripted_reply "NO" "send_email"
       ("RECIPIENT:" +:+ nl +:+ "SUBJECT:" +:+ nl
        +:+ "BODY: see you at noon")).

(** ** Further vocabulary *)

(** The text of the classification prompt after the user input. *)
Definition classify_prompt_tail : string :=
"
        
        Respond with only the intent name (schedule_meeting, send_email, or chitchat).
        ".

(** ** The side panel and the chat handlers *)

(** How an f-string prints a Boolean. *)
Definition py_bool (b : bool) : string := if b then "True" else "False".

(** How an f-string prints a list of strings that need no escaping, as
    the field names of the schema are. *)
Definition repr_names (names : list string) : string :=
  "[" +:+ String.concat ", " (map (fun name => "'" +:+ name +:+ "'") names)
      +:+ "]".

Section Handlers.

Context (L : Lib).

(** [_get_state_info] *)
Definition _get_state_info (w : World) (a : Assistant) (fs : Files) : string :=
  let history := get_conversation_history w a fs 3 in
  let s := conversation_state a in
  let state_info :=
    nl +:+ "**Current State:**" +:+ nl
    +:+ "- Intent: "
    +:+ match s_intent s with Some i => intent_name i | None => "None" end
    +:+ nl
    +:+ "- Gathering Info: " +:+ py_bool (s_gathering_info s) +:+ nl
    +:+ "- Awaiting Confirmation: " +:+ py_bool (s_awaiting_confirmation s)
    +:+ nl
    +:+ "- Missing Fields: " +:+ repr_names (s_missing_fields s) +:+ nl
    +:+ "- Session ID: " +:+ take 8 (session_id a) +:+ "..." +:+ nl
    +:+ nl
    +:+ "**Current Entities:**" +:+ nl
    +:+ json_dumps L (s_entities s) +:+ nl
    +:+ nl
    +:+ "**Recent History:**" +:+ nl in
  fold_left
    (fun state_info conv =>
       state_info
       +:+ "• User: " +:+ take 50 (c_user_message conv) +:+ "..." +:+ nl
       +:+ "• Bot: " +:+ take 50 (c_assistant_response conv) +:+ "..." +:+ nl)
    (last_n 2 history) state_info.

(** [chat_function]: the response of [process_message] with the side
    panel text that [process_message] returns beside it. *)
Definition chat_function (w : World) (a : Assistant) (fs : Files)
    (message : string) : option (string * string) * Assistant * Files :=
  match process_message L w a fs message with
  | (Some response, a', fs') =>
      (Some (response, _get_state_info w a' fs'), a', fs')
  | (None, a', fs') => (None, a', fs')
  end.

(** [respond]: the chat history, the new content of the text box and the
    side panel text; [None] stands for an exception. *)
Definition respond (w : World) (a : Assistant) (fs : Files)
    (message : string) (chat_history : list (string * string))
    : option (list (string * string) * string * string) * Assistant * Files :=
  if negb (truthy (strip message)) then
    (Some (chat_history, EmptyString, EmptyString), a, fs)
  else
    match chat_function w a fs message with
    | (Some (response, state_info), a', fs') =>
        (Some ((chat_history ++ [(message, response)])%list, EmptyString,
               state_info), a', fs')
    | (None, a', fs') => (None, a', fs')
    end.

End Handlers.

(** [new_chat], given the identifier [uuid.uuid4()] draws: the emptied
    chat, the side panel text and the assistant. *)
Definition new_chat (a : Assistant) (uuid : string)
    : list (string * string) * string * Assistant :=
  ([],
   "**Current State:**" +:+ nl +:+ "- Intent: None" +:+ nl
   +:+ "- Awaiting Confirmation: False" +:+ nl +:+ nl
   +:+ "**Current Entities:**" +:+ nl +:+ "{}",
   reset_session a uuid).

(** ** Vocabulary of the further statements *)

(** The payload [execute_action] builds for a task intent. *)
Definition action_payload (w : World) (intent : Intent)
    (entities : gmap string string) : ActionData :=
  match intent with
  | send_email =>
      EmailData (entities !! "recipient")
        (default "No subject" (entities !! "subject"))
        (entities !! "body") (now_iso w)
  | _ =>
      MeetingData (default "Meeting" (entities !! "title"))
        (entities !! "date") (entities !! "time")
        (default EmptyString (entities !! "participants")) (now_iso w)
  end.

(** The kind under which [execute_action] records a task intent. *)
Definition action_kind (intent : Intent) : string :=
  match intent with send_email => "email" | _ => "meeting" end.

(** The outbox file [execute_action] writes for a task intent. *)
Definition outbox_file (w : World) (intent : Intent) : string :=
  "outbox/" +:+ action_kind intent +:+ "_" +:+ now_stamp w +:+ ".json".

(** The record [save_action] appends for an executed task. *)
Definition action_record (w : World) (a : Assistant) (intent : Intent)
    (entities : gmap string string) : Action :=
  {| a_session_id := session_id a;
     a_action_type := action_kind intent;
     a_action_data := action_payload w intent entities;
     a_executed := true;
     a_timestamp := now_iso w |}.

(** The intent is one of the two tasks. *)
Definition is_task (intent : option Intent) : Prop :=
  intent = Some schedule_meeting \/ intent = Some send_email.

(** The conversation file of the assistant can be read back and
    rewritten in this world. *)
Definition conversation_io_ok (w : World) : Prop :=
  conversation_read_ok w = true /\ conversation_write_ok w = true.

(** The form under which [_parse_date] examines its argument. *)
Definition _parse_date_normal_form (date_str : string) : string :=
  strip (lower date_str).

(** * Properties *)

(** ** Sanity checks of the helpers *)

Example lower_ex : lower "Hello, World" = "hello, world".
Proof. reflexivity. Qed.

Example strip_ex : strip "  yes please " = "yes please".
Proof. reflexivity. Qed.

Example split_ex : split "TITLE:" "TITLE: Budget review" = [EmptyString; " Budget review"].
Proof. reflexivity. Qed.

Example split_ex2 : split "ab" "xabyabab" = ["x"; "y"; EmptyString; EmptyString].
Proof. reflexivity. Qed.

Example contains_ex : contains "meeting" "book a meeting" = true.
Proof. reflexivity. Qed.

Example ord_2024_03_04 : ymd2ord 2024 3 4 = 738949.
Proof. reflexivity. Qed.

Example fmt_2024_03_04 : strftime_ymd 738949 = "2024-03-04".
Proof. reflexivity. Qed.

Example fmt_leap_day : strftime_ymd (ymd2ord 2024 2 29) = "2024-02-29".
Proof. reflexivity. Qed.

Example fmt_year_end : strftime_ymd (ymd2ord 2023 12 31 + 1) = "2024-01-01".
Proof. reflexivity. Qed.

Example monday_2024_03_04 : weekday (ymd2ord 2024 3 4) = 0.
Proof. reflexivity. Qed.

(** ** White space *)

Lemma truthy_false (s : string) : truthy s = false <-> s = EmptyString.
Proof. destruct s; simpl; split; congruence. Qed.

Lemma lstrip_whitespace_only (s : string) :
  lstrip s = EmptyString <-> whitespace_only s = true.
Proof.
  induction s as [|c r IH]; simpl.
  - tauto.
  - destruct (is_space c); simpl.
    + exact IH.
    + split; discriminate.
Qed.

Lemma rstrip_whitespace_only (s : string) :
  rstrip s = EmptyString <-> whitespace_only s = true.
Proof.
  induction s as [|c r IH]; simpl.
  - tauto.
  - destruct (rstrip r) eqn:Er.
    + destruct (is_space c); simpl.
      * tauto.
      * split; discriminate.
    + split; [discriminate|].
      intros H. apply andb_true_iff in H as [_ H].
      apply IH in H. discriminate.
Qed.

Lemma whitespace_only_lstrip (s : string) :
  whitespace_only (lstrip s) = whitespace_only s.
Proof.
  induction s as [|c r IH]; simpl; [reflexivity|].
  destruct (is_space c) eqn:Ec; simpl; [exact IH|].
  now rewrite Ec.
Qed.

Lemma strip_whitespace_only (s : string) :
  strip s = EmptyString <-> whitespace_only s = true.
Proof.
  unfold strip. rewrite rstrip_whitespace_only, whitespace_only_lstrip.
  tauto.
Qed.

(** A field is blank exactly when it is absent or holds white space only
    (the empty string included). *)
Lemma blank_spec (entities : gmap string string) (key : string) :
  blank entities key = true <->
  entities !! key = None \/
  exists value, entities !! key = Some value /\ whitespace_only value = true.
Proof.
  unfold blank. destruct (entities !! key) as [value|].
  - rewrite orb_true_iff, !negb_true_iff, !truthy_false.
    rewrite strip_whitespace_only. split.
    + intros [->|H]; right; eexists; split; eauto.
    + intros [?|(v & [= <-] & H)]; [congruence|]. now right.
  - split; auto.
Qed.

(** ** Field schema *)

Lemma get_missing_fields_filter (intent : Intent)
    (entities : gmap string string) :
  get_missing_fields intent entities
  = List.filter (blank entities) (required_fields intent).
Proof.
  destruct intent; unfold get_missing_fields, append_if_blank; simpl;
    repeat (destruct (blank entities _)); reflexivity.
Qed.

Lemma required_fields_have_questions (intent : Intent) (field : string) :
  In field (required_fields intent) -> is_Some (questions intent !! field).
Proof.
  destruct intent; simpl; intros H;
    repeat (destruct H as [<-|H]; [eexists; reflexivity|]); destruct H.
Qed.

Lemma next_question_of_missing (intent : Intent)
    (entities : gmap string string) (field : string) (rest : list string) :
  get_missing_fields intent entities = field :: rest ->
  is_Some (get_next_missing_field_question intent (field :: rest)).
Proof.
  intros H.
  assert (In field (required_fields intent)) as Hin.
  { rewrite get_missing_fields_filter in H.
    assert (In field (List.filter (blank entities) (required_fields intent)))
      as Hf by (rewrite H; now left).
    apply filter_In in Hf. tauto. }
  apply required_fields_have_questions in Hin.
  destruct intent; simpl in *; auto.
Qed.

(** C9: [get_missing_fields] returns, in schema order, exactly the required
    fields ([title, date, time, participants] for a meeting and
    [recipient, body] for an email) that are absent or hold white space
    only, and [get_next_missing_field_question] applied to that list gives
    the question the schema has for its first element, which exists, and
    nothing when the list is empty. *)
Theorem C9_missing_fields_and_next_question (fields : gmap string string) :
  get_missing_fields schedule_meeting fields
  = List.filter (blank fields) ["title"; "date"; "time"; "participants"]
  /\ get_missing_fields send_email fields
     = List.filter (blank fields) ["recipient"; "body"]
  /\ (forall key,
        blank fields key = true <->
        fields !! key = None \/
        exists value, fields !! key = Some value /\ whitespace_only value = true)
  /\ (forall intent,
        get_next_missing_field_question intent (get_missing_fields intent fields)
        = match get_missing_fields intent fields with
          | [] => None
          | field :: _ => questions intent !! field
          end)
  /\ (forall intent field rest,
        get_missing_fields intent fields = field :: rest ->
        is_Some (questions intent !! field))
  /\ get_next_missing_field_question schedule_meeting [] = None
  /\ get_next_missing_field_question send_email [] = None.
Proof.
  split; [apply (get_missing_fields_filter schedule_meeting)|].
  split; [apply (get_missing_fields_filter send_email)|].
  split; [intros key; apply blank_spec|].
  split.
  { intros intent. destruct (get_missing_fields intent fields); [reflexivity|].
    destruct intent; reflexivity. }
  split; [|split; reflexivity].
  intros intent field rest H.
  pose proof (next_question_of_missing _ _ _ _ H) as Hq.
  destruct intent; simpl in *; auto.
Qed.

Example missing_fields_meeting_ex :
  get_missing_fields schedule_meeting
    (<["title" := "Budget review"]> (<["time" := "   "]> ∅))
  = ["date"; "time"; "participants"].
Proof. vm_compute. reflexivity. Qed.

Example next_question_meeting_ex :
  get_next_missing_field_question schedule_meeting ["date"; "time"]
  = Some "What date would you like to schedule this meeting?".
Proof. vm_compute. reflexivity. Qed.

Example next_question_email_ex :
  get_next_missing_field_question send_email ["recipient"; "body"]
  = Some "Who should I send the email to? Please provide their email address.".
Proof. vm_compute. reflexivity. Qed.

(** ** Trimming does not change what a string contains *)

Lemma prefix_empty_r (sub : string) :
  String.prefix sub EmptyString = true -> sub = EmptyString.
Proof. destruct sub; simpl; congruence. Qed.

Lemma contains_lstrip (sub s : string) :
  starts_solid sub = true -> contains sub (lstrip s) = contains sub s.
Proof.
  intros Hsub. induction s as [|c r IH]; [reflexivity|].
  cbn [lstrip]. destruct (is_space c) eqn:Ec; [|reflexivity].
  rewrite IH. cbn [contains].
  destruct sub as [|d sub']; [now destruct r|].
  cbn [String.prefix]. destruct (ascii_dec d c) as [->|]; [|reflexivity].
  simpl in Hsub. rewrite Ec in Hsub. discriminate.
Qed.

Lemma ends_solid_tail (d : ascii) (sub : string) :
  ends_solid (String d sub) = true -> ends_solid sub = true.
Proof. destruct sub; simpl; auto. Qed.

Lemma prefix_rstrip (sub s : string) :
  ends_solid sub = true ->
  String.prefix sub (rstrip s) = String.prefix sub s.
Proof.
  revert sub. induction s as [|c r IH]; intros sub Hsub; [reflexivity|].
  destruct sub as [|d sub']; [now destruct (rstrip (String c r))|].
  pose proof (IH sub' (ends_solid_tail _ _ Hsub)) as IH'.
  cbn [rstrip]. destruct (rstrip r) as [|e r'] eqn:Er.
  - cbn [String.prefix]. destruct (ascii_dec d c) as [->|].
    + destruct sub' as [|d' sub''].
      * simpl in Hsub. apply negb_true_iff in Hsub. rewrite Hsub.
        simpl. destruct (ascii_dec c c); [|congruence]. now destruct r.
      * rewrite <- IH'. simpl.
        destruct (is_space c); simpl; [reflexivity|].
        now destruct (ascii_dec c c).
    + destruct (is_space c); simpl; [reflexivity|].
      now destruct (ascii_dec d c).
  - cbn [String.prefix]. destruct (ascii_dec d c); [exact IH'|reflexivity].
Qed.

Lemma contains_empty_r (sub : string) :
  contains sub EmptyString = String.prefix sub EmptyString.
Proof. simpl. apply orb_false_r. Qed.

Lemma contains_rstrip (sub s : string) :
  ends_solid sub = true -> contains sub (rstrip s) = contains sub s.
Proof.
  intros Hsub. induction s as [|c r IH]; [reflexivity|].
  cbn [contains]. rewrite <- (prefix_rstrip sub (String c r) Hsub), <- IH.
  cbn [rstrip]. destruct (rstrip r) as [|e r'] eqn:Er.
  - destruct (is_space c).
    + destruct sub; reflexivity.
    + cbn [contains]. reflexivity.
  - cbn [contains]. reflexivity.
Qed.

Lemma contains_strip (sub s : string) :
  starts_solid sub = true -> ends_solid sub = true ->
  contains sub (strip s) = contains sub s.
Proof.
  intros H1 H2. unfold strip.
  now rewrite contains_rstrip, contains_lstrip.
Qed.

(** ** Date normalisation *)

Lemma weekday_range (d : Z) : 0 <= weekday d < 7.
Proof. unfold weekday. apply Z.mod_pos_bound. lia. Qed.

(** [next_monday_after d] is a Monday, lies one to seven days after [d],
    and no day strictly between is a Monday. *)
Lemma next_monday_after_spec (d : Z) :
  weekday (next_monday_after d) = 0
  /\ d < next_monday_after d <= d + 7
  /\ (forall e, d < e < next_monday_after d -> weekday e <> 0)
  /\ (weekday d = 0 -> next_monday_after d = d + 7).
Proof.
  unfold next_monday_after, weekday.
  pose proof (Z.div_mod (d + 6) 7 ltac:(lia)) as Hd.
  pose proof (Z.mod_pos_bound (d + 6) 7 ltac:(lia)) as Hr.
  repeat split; try lia.
  - replace (d + (7 - (d + 6) mod 7) + 6) with ((((d + 6) / 7) + 1) * 7) by lia.
    apply Z.mod_mul. lia.
  - intros e He Hz.
    pose proof (Z.div_mod (e + 6) 7 ltac:(lia)) as Hq.
    rewrite Hz in Hq. lia.
Qed.

Lemma strftime_ymd_length (d : Z) : String.length (strftime_ymd d) = 10%nat.
Proof. unfold strftime_ymd. destruct (ord2ymd d) as [[y m] day]. reflexivity. Qed.

Lemma eqb_not_containing (sub literal s : string) :
  contains sub literal = false -> contains sub s = true ->
  String.eqb s literal = false.
Proof.
  intros Hl Hs. destruct (String.eqb s literal) eqn:E; [|reflexivity].
  apply String.eqb_eq in E. congruence.
Qed.

(** The step [days_ahead = 0 - today.weekday(); if days_ahead <= 0:
    days_ahead += 7] lands on [next_monday_after]. *)
Lemma days_ahead_next_monday (d : Z) :
  d + (if 0 - weekday d <=? 0 then 0 - weekday d + 7 else 0 - weekday d)
  = next_monday_after d.
Proof.
  pose proof (weekday_range d). unfold next_monday_after.
  destruct (Z.leb_spec (0 - weekday d) 0); lia.
Qed.

(** C7, as amended: a date expression whose lower-cased form contains
    "monday" and does not contain "next week" is normalised to the ISO
    date (ten characters) of the first Monday strictly after the reference
    date, which is the reference date plus seven days when the reference
    date is itself a Monday. *)
Theorem C7_parse_date_monday (L : Lib) (w : World) (date_str : string) :
  contains "monday" (lower date_str) = true ->
  contains "next week" (lower date_str) = false ->
  _parse_date L w date_str = strftime_ymd (next_monday_after (today w))
  /\ String.length (_parse_date L w date_str) = 10%nat
  /\ weekday (next_monday_after (today w)) = 0
  /\ today w < next_monday_after (today w) <= today w + 7
  /\ (forall e, today w < e < next_monday_after (today w) -> weekday e <> 0)
  /\ (weekday (today w) = 0 -> next_monday_after (today w) = today w + 7).
Proof.
  intros Hm Hn.
  assert (_parse_date L w date_str = strftime_ymd (next_monday_after (today w)))
    as Heq.
  { unfold _parse_date.
    rewrite <- (contains_strip "monday" (lower date_str)) in Hm by reflexivity.
    rewrite <- (contains_strip "next week" (lower date_str)) in Hn by reflexivity.
    rewrite (eqb_not_containing "monday" "today" _ eq_refl Hm).
    rewrite (eqb_not_containing "monday" "tomorrow" _ eq_refl Hm).
    rewrite Hn, Hm. now rewrite days_ahead_next_monday. }
  split; [exact Heq|]. rewrite Heq.
  split; [apply strftime_ymd_length|].
  apply next_monday_after_spec.
Qed.

Lemma C7_parse_date_monday_witness :
  _parse_date plain_lib monday_world "Monday" = "2024-03-11".
Proof.
  destruct (C7_parse_date_monday plain_lib monday_world "Monday")
    as [H _]; [reflexivity|reflexivity|].
  rewrite H. reflexivity.
Defined.

(** C7, the claim as stated fails: on Tuesday 5 March 2024 the expression
    "monday next week" contains "monday" and is normalised to the
    following Tuesday, 12 March, whereas the first Monday after the
    reference date is 11 March. *)
Lemma C7_counterexample_next_week_wins :
  contains "monday" "monday next week" = true
  /\ _parse_date plain_lib tuesday_world "monday next week" = "2024-03-12"
  /\ strftime_ymd (next_monday_after (today tuesday_world)) = "2024-03-11"
  /\ _parse_date plain_lib tuesday_world "monday next week"
     <> strftime_ymd (next_monday_after (today tuesday_world)).
Proof. repeat split; try reflexivity. vm_compute. discriminate. Qed.

Example parse_date_tomorrow_ex :
  _parse_date plain_lib monday_world "tomorrow" = "2024-03-05".
Proof. reflexivity. Qed.

Example parse_date_monday_ex :
  _parse_date plain_lib monday_world "monday" = "2024-03-11".
Proof. reflexivity. Qed.

(** C8, as amended: a date expression whose lower-cased, trimmed form is
    none of the recognised literal forms and is rejected by the general
    parser is normalised to that lower-cased, trimmed form; it comes back
    verbatim when it already is in that form. *)
Theorem C8_parse_date_unparseable (L : Lib) (w : World) (date_str : string) :
  strip (lower date_str) <> "today" ->
  strip (lower date_str) <> "tomorrow" ->
  contains "next week" (lower date_str) = false ->
  contains "monday" (lower date_str) = false ->
  dateutil_parse L (today w) (strip (lower date_str)) = None ->
  _parse_date L w date_str = strip (lower date_str)
  /\ (strip (lower date_str) = date_str -> _parse_date L w date_str = date_str).
Proof.
  intros H1 H2 H3 H4 H5.
  assert (_parse_date L w date_str = strip (lower date_str)) as Heq.
  { unfold _parse_date.
    rewrite <- (contains_strip "next week" (lower date_str)) in H3 by reflexivity.
    rewrite <- (contains_strip "monday" (lower date_str)) in H4 by reflexivity.
    apply String.eqb_neq in H1, H2. now rewrite H1, H2, H3, H4, H5. }
  split; [exact Heq|]. intros E. now rewrite Heq.
Qed.

Lemma C8_parse_date_unparseable_witness :
  _parse_date plain_lib monday_world " Someday Soon" = "someday soon".
Proof.
  apply (C8_parse_date_unparseable plain_lib monday_world " Someday Soon");
    try reflexivity; vm_compute; discriminate.
Defined.

(** C8, the claim as stated fails: "Someday", which no branch recognises
    and the general parser rejects, comes back as "someday", not as the
    string that was passed. *)
Lemma C8_counterexample_lowercased :
  dateutil_parse plain_lib (today monday_world) (strip (lower "Someday")) = None
  /\ _parse_date plain_lib monday_world "Someday" = "someday"
  /\ _parse_date plain_lib monday_world "Someday" <> "Someday".
Proof. repeat split; try reflexivity. vm_compute. discriminate. Qed.

(** ** Action executor *)

(** A failure of the write to the action log is swallowed: as long as the
    outbox can be written the executor returns a message. *)
Lemma execute_action_log_failure_swallowed (w : World) (a : Assistant)
    (fs : Files) (intent : option Intent) (entities : gmap string string) :
  outbox_write_ok w = true ->
  is_Some (execute_action w a fs intent entities).1.
Proof.
  intros H. unfold execute_action. rewrite H.
  destruct intent as [[]|]; simpl; eauto.
Qed.

(** C6, evaluated where the code departs from the claim: when the write to
    the outbox fails, [execute_action] raises for either task intent
    instead of returning the success message. *)
Theorem C6_execute_action_outbox_failure_raises (w : World) (a : Assistant)
    (fs : Files) (intent : Intent) (entities : gmap string string) :
  intent <> chitchat ->
  outbox_write_ok w = false ->
  (execute_action w a fs (Some intent) entities).1 = None.
Proof.
  intros Hi Hw. unfold execute_action. rewrite Hw.
  destruct intent; simpl; congruence.
Qed.

Lemma C6_execute_action_outbox_failure_raises_witness :
  (execute_action outbox_down_world keyed_assistant no_files
     (Some schedule_meeting) full_meeting_fields).1 = None.
Proof.
  apply (C6_execute_action_outbox_failure_raises outbox_down_world
           keyed_assistant no_files schedule_meeting full_meeting_fields).
  - discriminate.
  - reflexivity.
Defined.

(** The turn that confirms a complete meeting raises with it. *)
Example confirm_turn_raises_when_outbox_down :
  forall a,
    s_awaiting_confirmation (conversation_state a) = true ->
    s_intent (conversation_state a) = Some schedule_meeting ->
    (process_message plain_lib outbox_down_world a no_files "yes").1.1 = None.
Proof.
  intros a Ha Hi. unfold process_message. rewrite Ha, Hi. reflexivity.
Qed.

(** ** The turn function, branch by branch *)

Lemma among_In (tokens : list string) (word : string) :
  among tokens word = true <-> In word tokens.
Proof.
  unfold among. rewrite existsb_exists. split.
  - intros (x & Hx & E). apply String.eqb_eq in E. now subst.
  - intros H. exists word. split; [exact H|apply String.eqb_refl].
Qed.

Lemma among_affirmative (message : string) :
  among affirmative_tokens (strip (lower message)) = true
  <-> is_affirmative message.
Proof. apply among_In. Qed.

Lemma among_negative (message : string) :
  among negative_tokens (strip (lower message)) = true
  <-> is_negative message.
Proof. apply among_In. Qed.

Lemma among_false (tokens : list string) (word : string) :
  ~ In word tokens -> among tokens word = false.
Proof.
  intros H. destruct (among tokens word) eqn:E; [|reflexivity].
  apply among_In in E. contradiction.
Qed.

Lemma save_conversation_keeps_actions (w : World) (a : Assistant) (fs : Files)
    (m r : string) (i : option Intent) (e : gmap string string) (c : bool) :
  actions (save_conversation w a fs m r i e c) = actions fs
  /\ outbox (save_conversation w a fs m r i e c) = outbox fs.
Proof.
  unfold save_conversation.
  destruct (_ && conversation_write_ok w); auto.
Qed.

(** A turn that reaches the classification writes one line of the
    conversation file at most: no action is recorded, and the new state is
    one of the three that [classified_from] lists. *)
Lemma classify_and_respond_spec (L : Lib) (w : World) (a : Assistant)
    (fs : Files) (message : string) :
  let '(response, a', fs') := classify_and_respond L w a fs message in
  is_Some response
  /\ classified_from (conversation_state a) (conversation_state a')
  /\ a' = with_state a (conversation_state a')
  /\ actions fs' = actions fs /\ outbox fs' = outbox fs.
Proof.
  unfold classify_and_respond.
  set (intent := classify_intent w a fs message).
  destruct (bool_decide (intent = chitchat)) eqn:Ec.
  { apply bool_decide_eq_true in Ec. rewrite Ec.
    repeat split; eauto; try apply save_conversation_keeps_actions.
    now left. }
  apply bool_decide_eq_false in Ec.
  set (entities := extract_entities_with_context L w a fs message intent).
  destruct (get_missing_fields intent entities) as [|field rest] eqn:Em.
  - repeat split; eauto; try apply save_conversation_keeps_actions.
    right; right. exists intent. simpl. now rewrite Em.
  - destruct (next_question_of_missing _ _ _ _ Em) as [q Hq]. rewrite Hq.
    repeat split; eauto; try apply save_conversation_keeps_actions.
    right; left. exists intent. simpl. rewrite Em. repeat split; auto.
Qed.

Lemma classify_and_respond_chitchat (L : Lib) (w : World) (a : Assistant)
    (fs : Files) (message : string) :
  classify_intent w a fs message = chitchat ->
  classify_and_respond L w a fs message
  = (Some (_handle_chitchat message),
     with_state a (set_intent (conversation_state a) chitchat),
     save_conversation w a fs message (_handle_chitchat message)
       (Some chitchat) ∅ false).
Proof. intros H. unfold classify_and_respond. now rewrite H. Qed.

(** When the confirmation flag is down, or the text is neither a yes nor a
    no, the turn goes to the switch check and the classification. *)
Lemma process_message_falls_through (L : Lib) (w : World) (a : Assistant)
    (fs : Files) (message : string) :
  s_awaiting_confirmation (conversation_state a) = false
  \/ (~ is_affirmative message /\ ~ is_negative message) ->
  process_message L w a fs message
  = classify_and_respond L w (after_switch_check w a message) fs message.
Proof.
  intros H. unfold process_message. destruct H as [->|[Hy Hn]].
  - reflexivity.
  - rewrite (among_false affirmative_tokens _ Hy),
      (among_false negative_tokens _ Hn).
    now rewrite !andb_false_r.
Qed.

Lemma after_switch_check_cases (w : World) (a : Assistant) (message : string) :
  after_switch_check w a message = a
  \/ after_switch_check w a message = with_state a fresh_state.
Proof.
  unfold after_switch_check.
  destruct (_ && _); [|now left].
  destruct (detect_intent_change _ _ _ _); [now right|now left].
Qed.

Lemma with_state_state (a : Assistant) (s : ConversationState) :
  conversation_state (with_state a s) = s.
Proof. reflexivity. Qed.

Lemma with_state_same (a : Assistant) :
  with_state a (conversation_state a) = a.
Proof. now destruct a. Qed.

Lemma negative_not_affirmative (message : string) :
  is_negative message -> ~ is_affirmative message.
Proof.
  unfold is_negative, is_affirmative. intros Hn Hy.
  simpl in Hn.
  repeat (destruct Hn as [Hn|Hn];
          [rewrite <- Hn in Hy; simpl in Hy;
           repeat (destruct Hy as [Hy|Hy]; [discriminate|]); destruct Hy|]).
  destruct Hn.
Qed.

(** ** Step 1: the reply to a confirmation *)

(** The three branches of the reply to a confirmation.  With the
    confirmation flag up, a turn whose trimmed, lower-cased text is one of
    yes, y, confirm, ok, okay, sure calls the executor with the committed
    intent and the current fields and, whenever the executor returns a
    message, returns that message and leaves the fresh state (idle, no
    fields); a turn that is one of no, n, cancel, nevermind returns the
    cancellation message and leaves the fresh state without recording any
    action; any other turn records no action and is exactly the switch
    check followed by the classification of the same text, which commits
    an intent. *)
Theorem confirmation_reply_branches (L : Lib) (w : World) (a : Assistant)
    (fs : Files) (message : string) :
  s_awaiting_confirmation (conversation_state a) = true ->
  (is_affirmative message ->
   forall result fs1,
     execute_action w a fs (s_intent (conversation_state a))
       (s_entities (conversation_state a)) = (Some result, fs1) ->
     process_message L w a fs message
     = (Some result, with_state a fresh_state,
        save_conversation w a fs1 message result
          (s_intent (conversation_state a))
          (s_entities (conversation_state a)) false)
     /\ mode fresh_state = idle /\ s_entities fresh_state = ∅)
  /\ (is_negative message ->
      process_message L w a fs message
      = (Some "Action cancelled. How else can I help you?",
         with_state a fresh_state,
         save_conversation w a fs message
           "Action cancelled. How else can I help you?" None ∅ false)
      /\ actions (process_message L w a fs message).2 = actions fs
      /\ outbox (process_message L w a fs message).2 = outbox fs)
  /\ (~ is_affirmative message -> ~ is_negative message ->
      process_message L w a fs message
      = classify_and_respond L w (after_switch_check w a message) fs message
      /\ s_intent (conversation_state (process_message L w a fs message).1.2)
         = Some (classify_intent w (after_switch_check w a message) fs message)
      /\ actions (process_message L w a fs message).2 = actions fs
      /\ outbox (process_message L w a fs message).2 = outbox fs).
Proof.
  intros Hawait. split; [|split].
  - intros Hy result fs1 Hexec. split; [|split; reflexivity].
    unfold process_message. rewrite Hawait.
    apply among_affirmative in Hy. rewrite Hy. simpl. now rewrite Hexec.
  - intros Hn. pose proof (negative_not_affirmative _ Hn) as Hy.
    assert (process_message L w a fs message
            = (Some "Action cancelled. How else can I help you?",
               with_state a fresh_state,
               save_conversation w a fs message
                 "Action cancelled. How else can I help you?" None ∅ false))
      as Heq.
    { unfold process_message. rewrite Hawait.
      rewrite (among_false affirmative_tokens _ Hy).
      apply among_negative in Hn. now rewrite Hn. }
    rewrite Heq. split; [reflexivity|]. apply save_conversation_keeps_actions.
  - intros Hy Hn.
    rewrite process_message_falls_through by (now right).
    split; [reflexivity|].
    pose proof (classify_and_respond_spec L w (after_switch_check w a message)
                  fs message) as Hs.
    split.
    + unfold classify_and_respond.
      repeat (case_match; simpl; try reflexivity).
    + destruct (classify_and_respond _ _ _ _ _) as [[r a'] fs']. simpl. tauto.
Qed.

Lemma confirmation_reply_branches_ex :
  (process_message plain_lib chitchat_turn_world awaiting_email_session.1
     awaiting_email_session.2 " Yes").1.1
  = Some "✅ Email sent to bob@example.com. Details saved to files."
  /\ (process_message plain_lib chitchat_turn_world awaiting_email_session.1
        awaiting_email_session.2 "Cancel").1.1
     = Some "Action cancelled. How else can I help you?"
  /\ (process_message plain_lib chitchat_turn_world awaiting_email_session.1
        awaiting_email_session.2 "maybe").1.1
     = Some "I'm here to help you schedule meetings and send emails. What can I do for you?".
Proof.
  assert (s_awaiting_confirmation
            (conversation_state awaiting_email_session.1) = true) as Hawait
    by (vm_compute; reflexivity).
  split; [|split].
  - destruct (confirmation_reply_branches plain_lib chitchat_turn_world
                awaiting_email_session.1 awaiting_email_session.2 " Yes" Hawait)
      as (Hyes & _ & _).
    edestruct Hyes as [Heq _].
    + vm_compute. tauto.
    + vm_compute. reflexivity.
    + rewrite Heq. reflexivity.
  - destruct (confirmation_reply_branches plain_lib chitchat_turn_world
                awaiting_email_session.1 awaiting_email_session.2 "Cancel" Hawait)
      as (_ & Hno & _).
    destruct Hno as [Heq _].
    + vm_compute. tauto.
    + rewrite Heq. reflexivity.
  - destruct (confirmation_reply_branches plain_lib chitchat_turn_world
                awaiting_email_session.1 awaiting_email_session.2 "maybe" Hawait)
      as (_ & _ & Hother).
    destruct Hother as [Heq _].
    + vm_compute. intuition discriminate.
    + vm_compute. intuition discriminate.
    + rewrite Heq. vm_compute. reflexivity.
Defined.

(** ** Step 2: the intent switch *)

Lemma process_message_fresh (L : Lib) (w : World) (a : Assistant)
    (fs : Files) (message : string) :
  process_message L w (with_state a fresh_state) fs message
  = classify_and_respond L w (with_state a fresh_state) fs message.
Proof. reflexivity. Qed.

Lemma any_in_strip (words : list string) (s : string) :
  Forall (fun word => starts_solid word = true /\ ends_solid word = true) words ->
  any_in words (strip s) = any_in words s.
Proof.
  unfold any_in. induction 1 as [|word words [H1 H2] _ IH]; [reflexivity|].
  simpl. now rewrite IH, contains_strip.
Qed.

(** A text that contains a task keyword is neither a yes nor a no: the
    confirmation step never takes it. *)
Lemma keyword_text_not_token (text : string) :
  any_in meeting_keywords (lower text) = true
  \/ any_in email_keywords (lower text) = true ->
  ~ is_affirmative text /\ ~ is_negative text.
Proof.
  intros H.
  rewrite <- (any_in_strip meeting_keywords) in H
    by (repeat constructor).
  rewrite <- (any_in_strip email_keywords) in H
    by (repeat constructor).
  unfold is_affirmative, is_negative.
  split; intros Htok; simpl in Htok;
    repeat (destruct Htok as [Htok|Htok];
            [rewrite <- Htok in H; vm_compute in H;
             destruct H; discriminate|]);
    destruct Htok.
Qed.

(** C4: the detector answers false when there is no current intent, and
    answers true at once when the current intent is send_email and the
    lower-cased text contains one of book, schedule, meeting, appointment,
    call, or the current intent is schedule_meeting and the text contains
    one of send, email, mail, message.  In a turn that consults it (an
    intent is committed, the mode is gathering or awaiting confirmation,
    and the text was not taken as a yes or a no to a pending
    confirmation), a true answer makes the turn equal to the
    classification of the same text from the fresh state: the turn is the
    one a reset session would have made, whatever fields were in
    progress.  A text with such a keyword is never a yes or a no, so for
    the keyword rules this holds in every gathering or awaiting state. *)
Theorem C4_intent_switch (L : Lib) (w : World) (a : Assistant) (fs : Files)
    (text : string) :
  detect_intent_change w a text None = false
  /\ (any_in ["book"; "schedule"; "meeting"; "appointment"; "call"] (lower text)
      = true ->
      detect_intent_change w a text (Some send_email) = true)
  /\ (any_in ["send"; "email"; "mail"; "message"] (lower text) = true ->
      detect_intent_change w a text (Some schedule_meeting) = true)
  /\ (forall intent,
        s_intent (conversation_state a) = Some intent ->
        mode (conversation_state a) <> idle ->
        (s_awaiting_confirmation (conversation_state a) = true ->
         ~ is_affirmative text /\ ~ is_negative text) ->
        detect_intent_change w a text (Some intent) = true ->
        after_switch_check w a text = with_state a fresh_state
        /\ s_entities (conversation_state (after_switch_check w a text)) = ∅
        /\ process_message L w a fs text
           = classify_and_respond L w (with_state a fresh_state) fs text
        /\ process_message L w a fs text
           = process_message L w (with_state a fresh_state) fs text)
  /\ (mode (conversation_state a) <> idle ->
      (s_intent (conversation_state a) = Some send_email
       /\ any_in ["book"; "schedule"; "meeting"; "appointment"; "call"]
            (lower text) = true)
      \/ (s_intent (conversation_state a) = Some schedule_meeting
          /\ any_in ["send"; "email"; "mail"; "message"] (lower text) = true) ->
      process_message L w a fs text
      = process_message L w (with_state a fresh_state) fs text).
Proof.
  assert (forall intent,
            s_intent (conversation_state a) = Some intent ->
            mode (conversation_state a) <> idle ->
            (s_awaiting_confirmation (conversation_state a) = true ->
             ~ is_affirmative text /\ ~ is_negative text) ->
            detect_intent_change w a text (Some intent) = true ->
            after_switch_check w a text = with_state a fresh_state
            /\ s_entities (conversation_state (after_switch_check w a text)) = ∅
            /\ process_message L w a fs text
               = classify_and_respond L w (with_state a fresh_state) fs text
            /\ process_message L w a fs text
               = process_message L w (with_state a fresh_state) fs text)
    as Hturn; [|split; [reflexivity|]; split; [|split; [|split; [exact Hturn|]]]].
  - intros intent Hi Hmode Htok Hdet.
    assert (after_switch_check w a text = with_state a fresh_state) as Hsw.
    { unfold after_switch_check. rewrite Hi, Hdet.
      unfold mode in Hmode.
      destruct (s_awaiting_confirmation _), (s_gathering_info _);
        try reflexivity. congruence. }
    assert (process_message L w a fs text
            = classify_and_respond L w (with_state a fresh_state) fs text) as Hp.
    { rewrite process_message_falls_through, Hsw; [reflexivity|].
      destruct (s_awaiting_confirmation (conversation_state a)); auto. }
    rewrite Hsw, process_message_fresh. auto.
  - intros H. unfold detect_intent_change, meeting_keywords.
    now rewrite H.
  - intros H. unfold detect_intent_change, email_keywords.
    rewrite H. reflexivity.
  - intros Hmode [[Hi Hk]|[Hi Hk]].
    + apply (Hturn send_email); auto.
      * intros _. apply keyword_text_not_token. now left.
      * unfold detect_intent_change, meeting_keywords. now rewrite Hk.
    + apply (Hturn schedule_meeting); auto.
      * intros _. apply keyword_text_not_token. now right.
      * unfold detect_intent_change, email_keywords. rewrite Hk. reflexivity.
Qed.

Lemma C4_intent_switch_witness :
  detect_intent_change full_meeting_turn_world gathering_email_session.1
    "actually, book a meeting with Sam tomorrow at 3pm" (Some send_email)
  = true
  /\ (process_message plain_lib full_meeting_turn_world
        gathering_email_session.1 gathering_email_session.2
        "actually, book a meeting with Sam tomorrow at 3pm").1.1
     = Some "Do you want me to book 'sync with Sam' on 2024-03-06 at 3pm with sam@example.com?".
Proof.
  destruct (C4_intent_switch plain_lib full_meeting_turn_world
              gathering_email_session.1 gathering_email_session.2
              "actually, book a meeting with Sam tomorrow at 3pm")
    as (_ & Hkey & _ & Hturn & _).
  split.
  - apply Hkey. vm_compute. reflexivity.
  - destruct (Hturn send_email) as (_ & _ & Heq & _).
    + vm_compute. reflexivity.
    + vm_compute. discriminate.
    + vm_compute. discriminate.
    + apply Hkey. vm_compute. reflexivity.
    + rewrite Heq. vm_compute. reflexivity.
Defined.

(** ** Reachable states *)

Lemma run_turns_reachable (L : Lib) (turns : list (World * string))
    (a : Assistant) (fs : Files) :
  reachable L a fs ->
  reachable L (run_turns L turns (a, fs)).1 (run_turns L turns (a, fs)).2.
Proof.
  revert a fs. induction turns as [|[w m] turns IH]; intros a fs H; [exact H|].
  unfold run_turns. cbn [fold_left]. simpl.
  destruct (process_message L w a fs m) as [[r a'] fs'] eqn:E.
  apply IH. eapply reach_turn; eauto.
Qed.

Lemma classified_from_inv (s s' : ConversationState) :
  classified_from s s' -> mode_intent_inv s'.
Proof.
  intros [->|[(i & Hi & Hs & Hg & _)|(i & Hi & Hs & _ & Ha & _)]].
  - right; left. reflexivity.
  - right; right. exists i. auto.
  - right; right. exists i. auto.
Qed.

Lemma process_message_inv (L : Lib) (w : World) (a : Assistant) (fs : Files)
    (message : string) :
  mode_intent_inv (conversation_state a) ->
  mode_intent_inv (conversation_state (process_message L w a fs message).1.2).
Proof.
  intros Hinv. unfold process_message.
  destruct (s_awaiting_confirmation (conversation_state a)
            && among affirmative_tokens (strip (lower message))).
  { destruct (execute_action _ _ _ _ _) as [[result|] fs1]; simpl.
    - left. auto.
    - exact Hinv. }
  destruct (s_awaiting_confirmation (conversation_state a)
            && among negative_tokens (strip (lower message))).
  { left. auto. }
  pose proof (classify_and_respond_spec L w (after_switch_check w a message)
                fs message) as Hs.
  destruct (classify_and_respond _ _ _ _ _) as [[r a'] fs']. simpl.
  destruct Hs as (_ & Hc & _). eapply classified_from_inv; eauto.
Qed.

Lemma reachable_inv (L : Lib) (a : Assistant) (fs : Files) :
  reachable L a fs -> mode_intent_inv (conversation_state a).
Proof.
  induction 1 as [key uuid fs|a fs w m r a' fs' _ IH Hstep|a fs uuid _ _].
  - left. auto.
  - pose proof (process_message_inv L w a fs m IH) as H.
    now rewrite Hstep in H.
  - left. auto.
Qed.

(** C5, as amended: in every reachable state, a committed intent of none
    implies that the mode is idle, and an idle mode implies that the
    committed intent is none or chitchat; a turn classified as chitchat
    from an idle state commits the intent chitchat and leaves the mode
    idle. *)
Theorem C5_idle_and_committed_intent (L : Lib) (a : Assistant) (fs : Files) :
  reachable L a fs ->
  (s_intent (conversation_state a) = None -> mode (conversation_state a) = idle)
  /\ (mode (conversation_state a) = idle ->
      s_intent (conversation_state a) = None
      \/ s_intent (conversation_state a) = Some chitchat)
  /\ (forall w message,
        mode (conversation_state a) = idle ->
        classify_intent w a fs message = chitchat ->
        s_intent (conversation_state (process_message L w a fs message).1.2)
        = Some chitchat
        /\ mode (conversation_state (process_message L w a fs message).1.2)
           = idle).
Proof.
  intros Hr. pose proof (reachable_inv L a fs Hr) as Hinv.
  unfold mode. split; [|split].
  - intros Hn. destruct Hinv as [(_ & -> & ->)|[H|(i & _ & H & _)]];
      [reflexivity|congruence..].
  - intros Hidle.
    destruct Hinv as [(Hn & _)|[H|(i & _ & _ & [Hg|Ha])]]; auto.
    + rewrite Hg in Hidle. now destruct (s_awaiting_confirmation _).
    + now rewrite Ha in Hidle.
  - intros w message Hidle Hc.
    destruct (s_awaiting_confirmation (conversation_state a)) eqn:Ea;
      [discriminate|].
    destruct (s_gathering_info (conversation_state a)) eqn:Eg;
      [discriminate|].
    assert (after_switch_check w a message = a) as Hsw.
    { unfold after_switch_check. rewrite Ea, Eg.
      now rewrite andb_false_r. }
    rewrite process_message_falls_through by (now left).
    rewrite Hsw, classify_and_respond_chitchat by exact Hc.
    simpl. now rewrite Ea, Eg.
Qed.

Lemma C5_idle_and_committed_intent_witness :
  s_intent (conversation_state
              (process_message plain_lib chitchat_turn_world keyed_assistant
                 no_files "hello there").1.2) = Some chitchat
  /\ mode (conversation_state
             (process_message plain_lib chitchat_turn_world keyed_assistant
                no_files "hello there").1.2) = idle.
Proof.
  destruct (C5_idle_and_committed_intent plain_lib keyed_assistant no_files)
    as (_ & _ & H).
  - apply reach_new.
  - apply H.
    + reflexivity.
    + vm_compute. reflexivity.
Defined.

(** C5, the claim as stated fails: after the single turn "hello there",
    classified as chitchat from the fresh session, the mode is idle and
    the committed intent is chitchat, not none. *)
Lemma C5_counterexample_chitchat_is_committed :
  reachable plain_lib greeted_session.1 greeted_session.2
  /\ mode (conversation_state greeted_session.1) = idle
  /\ s_intent (conversation_state greeted_session.1) = Some chitchat
  /\ s_intent (conversation_state greeted_session.1) <> None.
Proof.
  split.
  - apply (run_turns_reachable plain_lib
             [(chitchat_turn_world, "hello there")]), reach_new.
  - vm_compute. repeat split; discriminate.
Qed.

Lemma process_message_affirmative (L : Lib) (w : World) (a : Assistant)
    (fs : Files) (message : string) :
  s_awaiting_confirmation (conversation_state a) = true ->
  is_affirmative message ->
  process_message L w a fs message
  = match execute_action w a fs (s_intent (conversation_state a))
            (s_entities (conversation_state a)) with
    | (Some result, fs1) =>
        (Some result, with_state a fresh_state,
         save_conversation w a fs1 message result
           (s_intent (conversation_state a))
           (s_entities (conversation_state a)) false)
    | (None, fs1) => (None, a, fs1)
    end.
Proof.
  intros Hawait Hy. unfold process_message. rewrite Hawait.
  apply among_affirmative in Hy. now rewrite Hy.
Qed.

(** ** A reply to a confirmation that is read as small talk *)

(** C10, as amended: when a task awaits its confirmation and the reply is
    neither a yes nor a no, is not taken as a task switch by the detector
    and is classified as chitchat, the confirmation flag stays up with the
    fields in place while the committed intent becomes chitchat; a yes in
    the next turn then calls the executor with the intent chitchat, which
    returns "Action completed." without adding any record to the action
    log or to the outbox, and the state is reset: the pending action is
    dropped. *)
Theorem C10_chitchat_reply_drops_pending_action (L : Lib) (w w2 : World)
    (a : Assistant) (fs : Files) (intent : Intent) (reply confirm : string) :
  s_awaiting_confirmation (conversation_state a) = true ->
  s_intent (conversation_state a) = Some intent ->
  intent <> chitchat ->
  ~ is_affirmative reply ->
  ~ is_negative reply ->
  detect_intent_change w a reply (Some intent) = false ->
  classify_intent w a fs reply = chitchat ->
  is_affirmative confirm ->
  let after_reply := process_message L w a fs reply in
  let after_confirm :=
    process_message L w2 after_reply.1.2 after_reply.2 confirm in
  s_awaiting_confirmation (conversation_state after_reply.1.2) = true
  /\ s_intent (conversation_state after_reply.1.2) = Some chitchat
  /\ s_entities (conversation_state after_reply.1.2)
     = s_entities (conversation_state a)
  /\ after_confirm.1.1 = Some "Action completed."
  /\ actions after_confirm.2 = actions fs
  /\ outbox after_confirm.2 = outbox fs
  /\ conversation_state after_confirm.1.2 = fresh_state.
Proof.
  intros Hawait Hi Htask Hy Hn Hdet Hc Hconfirm after_reply after_confirm.
  assert (after_switch_check w a reply = a) as Hsw.
  { unfold after_switch_check. rewrite Hi, Hdet.
    now destruct (_ && _). }
  assert (after_reply
          = (Some (_handle_chitchat reply),
             with_state a (set_intent (conversation_state a) chitchat),
             save_conversation w a fs reply (_handle_chitchat reply)
               (Some chitchat) ∅ false)) as Hreply.
  { unfold after_reply.
    rewrite process_message_falls_through by (now right).
    rewrite Hsw. now apply classify_and_respond_chitchat. }
  assert (after_confirm
          = (Some "Action completed.",
             with_state after_reply.1.2 fresh_state,
             save_conversation w2 after_reply.1.2 after_reply.2 confirm
               "Action completed." (Some chitchat)
               (s_entities (conversation_state a)) false)) as Hconf.
  { unfold after_confirm. rewrite Hreply.
    rewrite process_message_affirmative; [reflexivity|exact Hawait|exact Hconfirm]. }
  rewrite Hconf. rewrite Hreply. simpl.
  repeat split; auto.
  - rewrite (proj1 (save_conversation_keeps_actions _ _ _ _ _ _ _ _)).
    apply save_conversation_keeps_actions.
  - rewrite (proj2 (save_conversation_keeps_actions _ _ _ _ _ _ _ _)).
    apply save_conversation_keeps_actions.
Qed.

Lemma C10_chitchat_reply_drops_pending_action_witness :
  (process_message plain_lib chitchat_turn_world
     (process_message plain_lib chitchat_turn_world awaiting_email_session.1
        awaiting_email_session.2 "maybe").1.2
     (process_message plain_lib chitchat_turn_world awaiting_email_session.1
        awaiting_email_session.2 "maybe").2 "yes").1.1
  = Some "Action completed.".
Proof.
  apply (C10_chitchat_reply_drops_pending_action plain_lib chitchat_turn_world
           chitchat_turn_world awaiting_email_session.1
           awaiting_email_session.2 send_email "maybe" "yes").
  - vm_compute. reflexivity.
  - vm_compute. reflexivity.
  - discriminate.
  - vm_compute. intuition discriminate.
  - vm_compute. intuition discriminate.
  - vm_compute. reflexivity.
  - vm_compute. reflexivity.
  - vm_compute. tauto.
Defined.

(** C10, the claim as stated fails: while the email to bob@example.com
    awaits its confirmation, the reply "call me maybe" is neither a yes
    nor a no and is classified as chitchat, but it contains the meeting
    keyword "call", so the switch check resets the state first and the
    confirmation flag is down after the turn. *)
Lemma C10_counterexample_switch_clears_flag :
  s_awaiting_confirmation (conversation_state awaiting_email_session.1) = true
  /\ s_intent (conversation_state awaiting_email_session.1) = Some send_email
  /\ ~ is_affirmative "call me maybe"
  /\ ~ is_negative "call me maybe"
  /\ classify_intent chitchat_turn_world awaiting_email_session.1
       awaiting_email_session.2 "call me maybe" = chitchat
  /\ s_intent (conversation_state
       (process_message plain_lib chitchat_turn_world awaiting_email_session.1
          awaiting_email_session.2 "call me maybe").1.2) = Some chitchat
  /\ s_awaiting_confirmation (conversation_state
       (process_message plain_lib chitchat_turn_world awaiting_email_session.1
          awaiting_email_session.2 "call me maybe").1.2) = false.
Proof.
  repeat split; try (vm_compute; reflexivity);
    vm_compute; intuition discriminate.
Qed.

(** ** The confirmation flag and the missing fields *)

Lemma classified_from_confirmation_inv (s s' : ConversationState) :
  classified_from s s' -> confirmation_inv s'.
Proof.
  intros [->|[(i & _ & _ & Hg & _)|(i & _ & Hs & _ & _ & Hm & _)]] Ha Hg'.
  - reflexivity.
  - congruence.
  - now rewrite Hs.
Qed.

(** As long as the gathering flag is down, a raised confirmation flag does
    mean that no required field of the committed intent is missing. *)
Lemma reachable_confirmation_inv (L : Lib) (a : Assistant) (fs : Files) :
  reachable L a fs -> confirmation_inv (conversation_state a).
Proof.
  induction 1 as [key uuid fs|a fs w m r a' fs' _ IH Hstep|a fs uuid _ _];
    try (intros Ha; discriminate Ha).
  revert Hstep. unfold process_message.
  destruct (s_awaiting_confirmation (conversation_state a)
            && among affirmative_tokens (strip (lower m))).
  { destruct (execute_action _ _ _ _ _) as [[result|] fs1];
      intros [= <- <- <-]; [intros Ha; discriminate Ha|exact IH]. }
  destruct (s_awaiting_confirmation (conversation_state a)
            && among negative_tokens (strip (lower m))).
  { intros [= <- <- <-]. intros Ha; discriminate Ha. }
  intros Hstep.
  pose proof (classify_and_respond_spec L w (after_switch_check w a m) fs m)
    as Hs.
  rewrite Hstep in Hs. destruct Hs as (_ & Hc & _).
  eapply classified_from_confirmation_inv; eauto.
Qed.

(** C1, evaluated where the code departs from the claim.  After "email
    bob@example.com saying hello" (a complete email, awaiting its
    confirmation) and "also set up lunch with Sam" (read as a meeting with
    a title only), the session is reachable from a fresh one, its
    confirmation flag is still up, and the committed intent
    schedule_meeting lacks date, time and participants; a "yes" then books
    the meeting without them. *)
Theorem C1_confirmation_flag_with_missing_fields :
  reachable plain_lib stale_confirmation_session.1 stale_confirmation_session.2
  /\ s_awaiting_confirmation (conversation_state stale_confirmation_session.1)
     = true
  /\ mode (conversation_state stale_confirmation_session.1) = awaiting
  /\ s_intent (conversation_state stale_confirmation_session.1)
     = Some schedule_meeting
  /\ get_missing_fields schedule_meeting
       (s_entities (conversation_state stale_confirmation_session.1))
     = ["date"; "time"; "participants"]
  /\ s_missing_fields (conversation_state stale_confirmation_session.1)
     = ["date"; "time"; "participants"]
  /\ (process_message plain_lib chitchat_turn_world
        stale_confirmation_session.1 stale_confirmation_session.2 "yes").1.1
     = Some "✅ Meeting 'lunch with Sam' has been booked for None at None. Details saved to files.".
Proof.
  split.
  - apply (run_turns_reachable plain_lib
             [(email_turn_world, "email bob@example.com saying hello");
              (meeting_turn_world, "also set up lunch with Sam")]),
      reach_new.
  - vm_compute. repeat split; reflexivity.
Qed.

(** ** Merging extracted fields with the history *)

Lemma merge_entities_lookup (previous_entities entities : gmap string string)
    (key : string) :
  merge_entities previous_entities entities !! key
  = match entities !! key with
    | Some value => Some value
    | None => previous_entities !! key
    end.
Proof.
  unfold merge_entities. rewrite lookup_union.
  destruct (entities !! key), (previous_entities !! key); reflexivity.
Qed.

(** What one entry of the history offers for [key]. *)
Lemma absorb_conv_lookup (L : Lib) (intent : Intent) (key : string)
    (acc : gmap string string * string) (conv : Conv) :
  (absorb_conv L intent acc conv).1 !! key
  = match latest_usable intent key [conv] with
    | Some value => Some value
    | None => acc.1 !! key
    end.
Proof.
  destruct acc as [previous context]. unfold absorb_conv. simpl.
  destruct (bool_decide (c_intent conv = Some intent)); simpl; [|reflexivity].
  destruct (bool_decide (c_entities conv ≠ ∅)) eqn:En; simpl.
  - rewrite lookup_union, map_lookup_filter.
    destruct (c_entities conv !! key) as [value|]; simpl.
    + destruct (usable_value value) eqn:Eu.
      * rewrite option_guard_True by reflexivity. simpl.
        now destruct (previous !! key).
      * rewrite option_guard_False by discriminate. simpl.
        now destruct (previous !! key).
    + now destruct (previous !! key).
  - apply bool_decide_eq_false in En.
    assert (c_entities conv = ∅) as -> by (destruct (decide (c_entities conv = ∅)); tauto).
    now rewrite lookup_empty.
Qed.

Lemma latest_usable_cons (intent : Intent) (key : string) (conv : Conv)
    (rest : list Conv) :
  latest_usable intent key (conv :: rest)
  = match latest_usable intent key rest with
    | Some value => Some value
    | None => latest_usable intent key [conv]
    end.
Proof. simpl. now destruct (latest_usable intent key rest). Qed.

Lemma fold_absorb_lookup (L : Lib) (intent : Intent) (key : string)
    (history : list Conv) (acc : gmap string string * string) :
  (fold_left (absorb_conv L intent) history acc).1 !! key
  = match latest_usable intent key history with
    | Some value => Some value
    | None => acc.1 !! key
    end.
Proof.
  revert acc. induction history as [|conv rest IH]; intros acc; [reflexivity|].
  cbn [fold_left]. rewrite IH, latest_usable_cons, absorb_conv_lookup.
  destruct (latest_usable intent key rest); reflexivity.
Qed.

(** [previous_entities] holds, for each key, the usable value of the
    latest entry of the history recorded for the intent. *)
Lemma previous_of_history_lookup (L : Lib) (intent : Intent) (key : string)
    (history : list Conv) :
  (previous_of_history L intent history).1 !! key
  = latest_usable intent key history.
Proof.
  unfold previous_of_history. destruct history as [|conv rest]; [reflexivity|].
  rewrite fold_absorb_lookup. cbn [fst].
  destruct (latest_usable intent key (conv :: rest)); [reflexivity|].
  apply lookup_empty.
Qed.

Lemma last_n_length {A} (n : nat) (l : list A) :
  (List.length (last_n n l) <= n)%nat.
Proof. unfold last_n. rewrite length_skipn. lia. Qed.

Lemma get_conversation_history_length (w : World) (a : Assistant)
    (fs : Files) (limit : nat) :
  (List.length (get_conversation_history w a fs limit) <= limit)%nat.
Proof.
  unfold get_conversation_history.
  destruct (conversation_read_ok w); simpl; [|lia].
  destruct (conversations fs !! conversation_path a); simpl; [|lia].
  apply last_n_length.
Qed.

(** C3, as amended: for every field key and every turn classified to a
    task intent, the merged field map is computed from the at most five
    latest entries of the conversation file: if the extraction yields no
    value for the key, the merged map holds the value of the latest of
    those entries that was recorded for the same intent with a usable
    value for the key (non-blank and not "N/A"), unchanged, and nothing if
    there is none; if the extraction yields a value, the merged map holds
    that value. *)
Theorem C3_merge_with_recent_history (L : Lib) (w : World) (a : Assistant)
    (fs : Files) (user_input : string) (intent : Intent) (key : string) :
  let history := get_conversation_history w a fs 5 in
  let previous := previous_of_history L intent history in
  let extracted :=
    extracted_entities L w a user_input intent previous.2 previous.1 in
  (List.length history <= 5)%nat
  /\ (extracted !! key = None ->
      extract_entities_with_context L w a fs user_input intent !! key
      = latest_usable intent key history)
  /\ (forall value,
        extracted !! key = Some value ->
        extract_entities_with_context L w a fs user_input intent !! key
        = Some value).
Proof.
  intros history previous extracted.
  split; [apply get_conversation_history_length|].
  assert (extract_entities_with_context L w a fs user_input intent !! key
          = match extracted !! key with
            | Some value => Some value
            | None => latest_usable intent key history
            end) as Heq.
  { unfold extract_entities_with_context. fold history.
    unfold extracted, previous.
    destruct (previous_of_history L intent history) as [prev context] eqn:Ep.
    rewrite merge_entities_lookup. simpl.
    destruct (extracted_entities _ _ _ _ _ _ _ !! key); [reflexivity|].
    rewrite <- (previous_of_history_lookup L). now rewrite Ep. }
  split.
  - intros Hn. now rewrite Heq, Hn.
  - intros value Hv. now rewrite Heq, Hv.
Qed.

Lemma C3_merge_with_recent_history_witness :
  extract_entities_with_context plain_lib body_turn_world
    gathering_email_session.1 gathering_email_session.2
    "tell him see you at noon" send_email !! "recipient"
  = Some "bob@example.com"
  /\ extract_entities_with_context plain_lib body_turn_world
       gathering_email_session.1 gathering_email_session.2
       "tell him see you at noon" send_email !! "body"
     = Some "see you at noon".
Proof.
  split.
  - destruct (C3_merge_with_recent_history plain_lib body_turn_world
                gathering_email_session.1 gathering_email_session.2
                "tell him see you at noon" send_email "recipient")
      as (_ & Hkeep & _).
    rewrite Hkeep; vm_compute; reflexivity.
  - destruct (C3_merge_with_recent_history plain_lib body_turn_world
                gathering_email_session.1 gathering_email_session.2
                "tell him see you at noon" send_email "body")
      as (_ & _ & Hnew).
    apply Hnew. vm_compute. reflexivity.
Defined.

(** C3, the claim as stated fails: the recipient given in "send an email
    to bob@example.com" is the value of the most recent send_email turn
    of the session, but after five turns of small talk that turn is no
    longer among the five entries read back, so a further send_email turn
    whose extraction yields no recipient ends with no recipient at all and
    the assistant asks for it again. *)
Lemma C3_counterexample_history_window :
  List.length (conversation_log long_pause_session) = 6%nat
  /\ latest_usable send_email "recipient" (conversation_log long_pause_session)
     = Some "bob@example.com"
  /\ classify_intent bare_email_turn_world long_pause_session.1
       long_pause_session.2 "please send the email" = send_email
  /\ extract_entities_with_context plain_lib bare_email_turn_world
       long_pause_session.1 long_pause_session.2 "please send the email"
       send_email !! "recipient" = None
  /\ (process_message plain_lib bare_email_turn_world long_pause_session.1
        long_pause_session.2 "please send the email").1.1
     = Some "Who should I send the email to? Please provide their email address.".
Proof. vm_compute. repeat split; reflexivity. Qed.

(** ** The rule-based fallback *)

(** Every answer of the fallback starts with "INTENT:" and none contains
    "yes": an extraction that falls back goes to the regular expressions,
    and a task-switch question that falls back is answered no. *)
Lemma _fallback_response_shape (prompt : string) :
  startswith (_fallback_response prompt) "INTENT:" = true
  /\ contains "yes" (lower (_fallback_response prompt)) = false.
Proof.
  unfold _fallback_response.
  repeat (case_match; try (split; reflexivity)).
Qed.

(** Without an API key the classification prompt itself, which names the
    intents, is what the fallback searches for keywords. *)
Example classify_without_key_ex :
  classify_intent monday_world
    (new_assistant false "3f2b9c1e-7a4d-4e0b-9d57-1c2a6f8e0b11") no_files
    "hello there"
  = schedule_meeting.
Proof. vm_compute. reflexivity. Qed.

(** With the endpoint unreachable, the detector falls back to no. *)
Example detect_without_reply_ex :
  detect_intent_change monday_world keyed_assistant "hmm, wait"
    (Some send_email) = false.
Proof. vm_compute. reflexivity. Qed.

(** * Further properties of the code *)

(** ** Strings: concatenation, case and trimming *)

Lemma append_cons (x : ascii) (a b : string) :
  String x a +:+ b = String x (a +:+ b).
Proof. reflexivity. Qed.

Lemma append_assoc (a b c : string) : (a +:+ b) +:+ c = a +:+ (b +:+ c).
Proof.
  induction a as [|x a IH]; [reflexivity|].
  rewrite !append_cons. now rewrite IH.
Qed.

Lemma append_nil_r (a : string) : a +:+ EmptyString = a.
Proof.
  induction a as [|x a IH]; [reflexivity|].
  rewrite append_cons. now rewrite IH.
Qed.

Lemma lower_append (a b : string) : lower (a +:+ b) = lower a +:+ lower b.
Proof.
  induction a as [|x a IH]; [reflexivity|].
  rewrite append_cons. cbn [lower]. rewrite append_cons. now rewrite IH.
Qed.

Lemma prefix_append (sub s t : string) :
  String.prefix sub s = true -> String.prefix sub (s +:+ t) = true.
Proof.
  revert sub. induction s as [|c s IH]; intros sub H.
  - apply prefix_empty_r in H. subst. now destruct t.
  - destruct sub as [|d sub]; [reflexivity|]. simpl in *.
    destruct (ascii_dec d c); [auto|discriminate].
Qed.

Lemma contains_append_l (sub s t : string) :
  contains sub s = true -> contains sub (s +:+ t) = true.
Proof.
  induction s as [|c s IH]; intros H.
  - simpl in H. rewrite orb_false_r in H. apply prefix_empty_r in H. subst.
    now destruct t.
  - cbn [contains] in H. apply orb_true_iff in H as [H|H].
    + pose proof (prefix_append sub (String c s) t H) as Hp.
      rewrite append_cons in *. cbn [contains]. now rewrite Hp.
    + rewrite append_cons. cbn [contains]. rewrite (IH H). apply orb_true_r.
Qed.

Lemma contains_append_r (sub s t : string) :
  contains sub t = true -> contains sub (s +:+ t) = true.
Proof.
  intros H. induction s as [|c s IH]; [exact H|].
  rewrite append_cons. cbn [contains]. rewrite IH. apply orb_true_r.
Qed.

Lemma any_in_intro (words : list string) (word s : string) :
  In word words -> contains word s = true -> any_in words s = true.
Proof. intros Hin Hc. unfold any_in. apply existsb_exists. eauto. Qed.

Lemma is_space_lower (c : ascii) : is_space (lower_ascii c) = is_space c.
Proof. destruct c as [[] [] [] [] [] [] [] []]; reflexivity. Qed.

Lemma lower_lstrip (s : string) : lower (lstrip s) = lstrip (lower s).
Proof.
  induction s as [|c s IH]; [reflexivity|]. simpl.
  rewrite is_space_lower. destruct (is_space c); [exact IH|reflexivity].
Qed.

Lemma lower_rstrip (s : string) : lower (rstrip s) = rstrip (lower s).
Proof.
  induction s as [|c s IH]; [reflexivity|]. simpl.
  rewrite <- IH, is_space_lower.
  destruct (rstrip s); simpl; [|reflexivity].
  now destruct (is_space c).
Qed.

Lemma lower_strip (s : string) : lower (strip s) = strip (lower s).
Proof. unfold strip. now rewrite lower_rstrip, lower_lstrip. Qed.

Lemma lower_ascii_idem (c : ascii) : lower_ascii (lower_ascii c) = lower_ascii c.
Proof. destruct c as [[] [] [] [] [] [] [] []]; reflexivity. Qed.

Lemma lower_idem (s : string) : lower (lower s) = lower s.
Proof.
  induction s as [|c s IH]; [reflexivity|]. simpl.
  now rewrite IH, lower_ascii_idem.
Qed.

Lemma lstrip_idem (s : string) : lstrip (lstrip s) = lstrip s.
Proof.
  induction s as [|c s IH]; [reflexivity|]. simpl.
  destruct (is_space c) eqn:E; [exact IH|]. simpl. now rewrite E.
Qed.

Lemma rstrip_idem (s : string) : rstrip (rstrip s) = rstrip s.
Proof.
  induction s as [|c s IH]; [reflexivity|]. simpl.
  destruct (rstrip s) as [|d r] eqn:Er.
  - destruct (is_space c) eqn:E; [reflexivity|]. simpl. now rewrite E.
  - try rewrite Er in IH.
    change (rstrip (String c (String d r)))
      with (match rstrip (String d r) with
            | EmptyString =>
                if is_space c then EmptyString else String c EmptyString
            | String e r' => String c (String e r')
            end).
    now rewrite IH.
Qed.

(** What [lstrip] leaves starts with a solid character, which [rstrip]
    never removes. *)
Lemma lstrip_rstrip (s : string) : lstrip (rstrip s) = rstrip (lstrip s).
Proof.
  induction s as [|c s IH]; [reflexivity|].
  cbn [lstrip]. destruct (is_space c) eqn:E.
  - rewrite <- IH. cbn [rstrip].
    destruct (rstrip s) as [|d r] eqn:Er.
    + rewrite E. reflexivity.
    + cbn [lstrip]. now rewrite E.
  - cbn [rstrip]. destruct (rstrip s) as [|d r] eqn:Er.
    + rewrite E. cbn [lstrip]. now rewrite E.
    + cbn [lstrip]. now rewrite E.
Qed.

Lemma strip_idem (s : string) : strip (strip s) = strip s.
Proof.
  unfold strip. rewrite lstrip_rstrip, lstrip_idem, rstrip_idem. reflexivity.
Qed.

(** ** [split] and the text after the last separator *)

Lemma split_go_nonempty (sep : string) (skip : nat) (cur s : string) :
  split_go sep skip cur s <> [].
Proof.
  revert skip cur. induction s as [|c s IH]; intros skip cur.
  - destruct skip; discriminate.
  - destruct skip as [|k]; cbn [split_go].
    + destruct (String.prefix sep (String c s)); [discriminate|apply IH].
    + apply IH.
Qed.

Lemma last_cons_nonempty {A} (x d : A) (l : list A) :
  l <> [] -> List.last (x :: l) d = List.last l d.
Proof. destruct l; [congruence|reflexivity]. Qed.

Lemma prefix_length (sub s : string) :
  String.prefix sub s = true -> (String.length sub <= String.length s)%nat.
Proof.
  revert sub. induction s as [|c s IH]; intros sub H.
  - apply prefix_empty_r in H. subst. simpl. lia.
  - destruct sub as [|d sub]; simpl in *; [lia|].
    destruct (ascii_dec d c); [|discriminate]. apply IH in H. lia.
Qed.

(** A separator cannot run into a text whose first character it does not
    hold. *)
Lemma prefix_append_foreign (sep u : string) (c0 : ascii) (rest : string) :
  contains (String c0 EmptyString) sep = false ->
  String.prefix sep (u +:+ String c0 rest) = String.prefix sep u.
Proof.
  revert sep. induction u as [|c u IH]; intros sep Hc.
  - destruct sep as [|d sep]; [reflexivity|].
    cbn [contains String.prefix] in Hc. simpl.
    destruct (ascii_dec c0 d) as [->|Hne].
    + destruct sep; discriminate.
    + destruct (ascii_dec d c0); [congruence|reflexivity].
  - destruct sep as [|d sep]; [reflexivity|].
    rewrite append_cons. cbn [String.prefix].
    destruct (ascii_dec d c); [|reflexivity].
    apply IH. cbn [contains] in Hc. now apply orb_false_iff in Hc as [_ Hc].
Qed.

Lemma split_go_without_separator (sep cur s : string) :
  contains sep s = false -> split_go sep 0 cur s = [cur +:+ s].
Proof.
  revert cur. induction s as [|c s IH]; intros cur H.
  - now rewrite append_nil_r.
  - cbn [contains] in H. apply orb_false_iff in H as [Hp Hc].
    cbn [split_go]. rewrite Hp, (IH _ Hc), append_assoc. reflexivity.
Qed.

(** The last piece of a split text keeps a tail that holds no separator
    and that no separator can run into. *)
Lemma split_go_last_append (sep : string) (c0 : ascii) (rest : string) :
  contains (String c0 EmptyString) sep = false ->
  contains sep (String c0 rest) = false ->
  forall (s : string) (skip : nat) (cur : string),
    (skip <= String.length s)%nat ->
    List.last (split_go sep skip cur (s +:+ String c0 rest)) EmptyString
    = List.last (split_go sep skip cur s) EmptyString +:+ String c0 rest.
Proof.
  intros Hforeign Hfree. induction s as [|c s IH]; intros skip cur Hskip.
  - simpl in Hskip. assert (skip = 0%nat) as -> by lia.
    change (EmptyString +:+ String c0 rest) with (String c0 rest).
    now rewrite split_go_without_separator.
  - rewrite append_cons. destruct skip as [|k]; cbn [split_go].
    + pose proof (prefix_append_foreign sep (String c s) c0 rest Hforeign) as Hp.
      rewrite append_cons in Hp. rewrite Hp.
      destruct (String.prefix sep (String c s)) eqn:E.
      * rewrite !last_cons_nonempty by apply split_go_nonempty.
        apply IH. apply prefix_length in E. simpl in E. lia.
      * apply IH. lia.
    + apply IH. simpl in Hskip. lia.
Qed.

Lemma split_last_append (sep s : string) (c0 : ascii) (rest : string) :
  contains (String c0 EmptyString) sep = false ->
  contains sep (String c0 rest) = false ->
  List.last (split sep (s +:+ String c0 rest)) EmptyString
  = List.last (split sep s) EmptyString +:+ String c0 rest.
Proof.
  intros H1 H2. unfold split. apply split_go_last_append; auto. lia.
Qed.

(** ** The rule-based fallback on the classification prompt *)

Lemma classify_prompt_split (context user_input : string) :
  exists head,
    classify_prompt context user_input = head +:+ classify_prompt_tail.
Proof.
  unfold classify_prompt.
  eexists. rewrite <- !append_assoc. reflexivity.
Qed.

(** Whatever precedes it, a prompt that ends like the classification
    prompt makes the fallback answer schedule_meeting: the closing
    instruction itself names that intent. *)
Lemma _fallback_response_on_classify_tail (head : string) :
  _fallback_response (head +:+ classify_prompt_tail)
  = "INTENT: schedule_meeting".
Proof.
  unfold _fallback_response.
  assert (forall text,
            any_in ["book"; "schedule"; "meeting"; "appointment"]
              (lower (text +:+ classify_prompt_tail)) = true) as Hplain.
  { intros text. apply (any_in_intro _ "schedule"); [simpl; auto|].
    rewrite lower_append. apply contains_append_r. reflexivity. }
  destruct (contains "User input:" (head +:+ classify_prompt_tail)).
  - unfold classify_prompt_tail at 1.
    rewrite split_last_append by reflexivity.
    fold classify_prompt_tail.
    assert (any_in ["book"; "schedule"; "meeting"; "appointment"]
              (lower (strip (List.last (split "User input:" head) EmptyString
                             +:+ classify_prompt_tail))) = true) as ->;
      [|reflexivity].
    rewrite lower_strip, any_in_strip by (repeat constructor).
    apply Hplain.
  - now rewrite Hplain.
Qed.

Lemma call_gemini_fallback (w : World) (a : Assistant) (prompt : string) :
  api_key a = false \/ gemini_post w prompt = None ->
  call_gemini w a prompt = _fallback_response prompt.
Proof.
  intros [H|H]; unfold call_gemini; rewrite H; simpl; [reflexivity|].
  now destruct (api_key a).
Qed.

Lemma classify_intent_fallback (w : World) (a : Assistant) (fs : Files)
    (user_input : string) :
  api_key a = false
  \/ gemini_post w
       (classify_prompt (classify_context (get_conversation_history w a fs 5))
          user_input) = None ->
  classify_intent w a fs user_input = schedule_meeting.
Proof.
  intros H. unfold classify_intent.
  rewrite (call_gemini_fallback _ _ _ H).
  destruct (classify_prompt_split
              (classify_context (get_conversation_history w a fs 5)) user_input)
    as [head ->].
  now rewrite _fallback_response_on_classify_tail.
Qed.

(** X1: when no API key is configured, or the endpoint gives no usable
    reply to the classification prompt, [classify_intent] answers
    schedule_meeting for every input and every history: the fallback
    searches the whole prompt, whose own wording names that intent. *)
Theorem X1_classification_without_backend (w : World) (a : Assistant)
    (fs : Files) (user_input : string) :
  api_key a = false
  \/ gemini_post w
       (classify_prompt (classify_context (get_conversation_history w a fs 5))
          user_input) = None ->
  classify_intent w a fs user_input = schedule_meeting.
Proof. apply classify_intent_fallback. Qed.

Lemma X1_classification_without_backend_witness :
  classify_intent monday_world keyed_assistant no_files "hello, how are you?"
  = schedule_meeting.
Proof.
  apply (X1_classification_without_backend monday_world keyed_assistant
           no_files "hello, how are you?").
  right. reflexivity.
Defined.

(** X3: when no API key is configured, or the endpoint gives no usable
    reply to the task-switch question, [detect_intent_change] is decided
    by the keyword rules alone: true exactly when the current intent is
    send_email and the text holds a meeting keyword, or the current intent
    is schedule_meeting and the text holds an email keyword. *)
Theorem X3_switch_detection_without_backend (w : World) (a : Assistant)
    (user_input : string) (current : Intent) :
  api_key a = false
  \/ gemini_post w (intent_change_prompt user_input current) = None ->
  detect_intent_change w a user_input (Some current)
  = (bool_decide (current = send_email)
     && any_in ["book"; "schedule"; "meeting"; "appointment"; "call"]
          (lower user_input))
    || (bool_decide (current = schedule_meeting)
        && any_in ["send"; "email"; "mail"; "message"] (lower user_input)).
Proof.
  intros H. unfold detect_intent_change, meeting_keywords, email_keywords.
  destruct (bool_decide (current = send_email)
            && any_in _ (lower user_input)); [reflexivity|].
  destruct (bool_decide (current = schedule_meeting)
            && any_in _ (lower user_input)); [reflexivity|].
  destruct (api_key a) eqn:Ek; [|reflexivity].
  rewrite call_gemini_fallback by (destruct H; [congruence|now right]).
  now rewrite (proj2 (_fallback_response_shape _)).
Qed.

Lemma X3_switch_detection_without_backend_witness :
  detect_intent_change monday_world keyed_assistant
    "actually I changed my mind" (Some send_email) = false.
Proof.
  rewrite (X3_switch_detection_without_backend monday_world keyed_assistant
             "actually I changed my mind" send_email).
  - reflexivity.
  - right. reflexivity.
Defined.

Lemma extraction_fallback (L : Lib) (w : World) (a : Assistant)
    (user_input context : string) (previous_entities : gmap string string) :
  (api_key a = false
   \/ gemini_post w (email_prompt L user_input context previous_entities) = None
   -> _extract_email_entities_with_context L w a user_input context
        previous_entities
      = _regex_extract_email L user_input)
  /\ (api_key a = false
      \/ gemini_post w (meeting_prompt L user_input context previous_entities)
         = None
      -> _extract_meeting_entities_with_context L w a user_input context
           previous_entities
         = match _regex_extract_meeting L user_input !! "date" with
           | Some d =>
               <["date" := _parse_date L w d]> (_regex_extract_meeting L user_input)
           | None => _regex_extract_meeting L user_input
           end).
Proof.
  split; intros H.
  - unfold _extract_email_entities_with_context.
    rewrite (call_gemini_fallback _ _ _ H).
    rewrite (proj1 (_fallback_response_shape _)).
    now rewrite andb_false_r.
  - unfold _extract_meeting_entities_with_context.
    rewrite (call_gemini_fallback _ _ _ H).
    rewrite (proj1 (_fallback_response_shape _)).
    now rewrite andb_false_r.
Qed.

(** X4: when no API key is configured, or the endpoint gives no usable
    reply to the extraction prompt, the fields come from the regular
    expressions applied to the current input alone, whatever the context
    and the previously known fields; for a meeting the date found is then
    normalised. *)
Theorem X4_extraction_without_backend (L : Lib) (w : World) (a : Assistant)
    (user_input context : string) (previous_entities : gmap string string) :
  (api_key a = false
   \/ gemini_post w (email_prompt L user_input context previous_entities) = None
   -> _extract_email_entities_with_context L w a user_input context
        previous_entities
      = _regex_extract_email L user_input)
  /\ (api_key a = false
      \/ gemini_post w (meeting_prompt L user_input context previous_entities)
         = None
      -> _extract_meeting_entities_with_context L w a user_input context
           previous_entities
         = match _regex_extract_meeting L user_input !! "date" with
           | Some d =>
               <["date" := _parse_date L w d]> (_regex_extract_meeting L user_input)
           | None => _regex_extract_meeting L user_input
           end).
Proof. apply extraction_fallback. Qed.

Lemma X4_extraction_without_backend_witness :
  _extract_email_entities_with_context plain_lib monday_world keyed_assistant
    "email john@example.com saying hello" EmptyString ∅
  = _regex_extract_email plain_lib "email john@example.com saying hello".
Proof.
  apply (X4_extraction_without_backend plain_lib monday_world keyed_assistant
           "email john@example.com saying hello" EmptyString ∅).
  right. reflexivity.
Defined.

Lemma regex_meeting_date (L : Lib) (text : string) :
  _regex_extract_meeting L text !! "date"
  = if contains "tomorrow" (lower text) then Some "tomorrow"
    else if contains "today" (lower text) then Some "today"
    else if contains "next week" (lower text) then Some "next week"
    else None.
Proof.
  unfold _regex_extract_meeting.
  repeat (case_match; simplify_map_eq; try reflexivity).
Qed.

(** X5: in the fallback the date of a meeting is read from three words
    only: a text with "tomorrow" gives the day after the reference date
    (also when it says "today" as well), otherwise "today" gives the
    reference date, otherwise "next week" gives the reference date plus
    seven days, and any other text gives no date; a weekday name or a
    calendar date in the text is not picked up. *)
Theorem X5_fallback_meeting_date (L : Lib) (w : World) (a : Assistant)
    (user_input context : string) (previous_entities : gmap string string) :
  api_key a = false
  \/ gemini_post w (meeting_prompt L user_input context previous_entities)
     = None ->
  _extract_meeting_entities_with_context L w a user_input context
    previous_entities !! "date"
  = if contains "tomorrow" (lower user_input)
    then Some (strftime_ymd (today w + 1))
    else if contains "today" (lower user_input)
    then Some (strftime_ymd (today w))
    else if contains "next week" (lower user_input)
    then Some (strftime_ymd (today w + 7))
    else None.
Proof.
  intros H.
  rewrite (proj2 (extraction_fallback L w a user_input context
                    previous_entities) H).
  pose proof (regex_meeting_date L user_input) as Hd.
  destruct (_regex_extract_meeting L user_input !! "date") as [d|] eqn:Ed.
  - rewrite lookup_insert_eq.
    repeat (case_match; simplify_eq; try reflexivity).
  - rewrite Ed. repeat (case_match; simplify_eq; try reflexivity).
Qed.

Lemma X5_fallback_meeting_date_witness :
  _extract_meeting_entities_with_context plain_lib monday_world
    keyed_assistant "Book a meeting with Sara tomorrow at 3pm" EmptyString ∅
    !! "date"
  = Some "2024-03-05".
Proof.
  rewrite (X5_fallback_meeting_date plain_lib monday_world keyed_assistant
             "Book a meeting with Sara tomorrow at 3pm" EmptyString ∅).
  - reflexivity.
  - right. reflexivity.
Defined.

(** ** What a turn leaves untouched *)

Lemma after_switch_check_identity (w : World) (a : Assistant) (message : string) :
  after_switch_check w a message
  = with_state a (conversation_state (after_switch_check w a message)).
Proof.
  destruct (after_switch_check_cases w a message) as [->| ->];
    [now rewrite with_state_same|reflexivity].
Qed.

Lemma process_message_identity (L : Lib) (w : World) (a : Assistant)
    (fs : Files) (message : string) :
  (process_message L w a fs message).1.2
  = with_state a (conversation_state (process_message L w a fs message).1.2).
Proof.
  unfold process_message.
  destruct (s_awaiting_confirmation (conversation_state a)
            && among affirmative_tokens (strip (lower message))).
  { destruct (execute_action _ _ _ _ _) as [[result|] fs1]; simpl;
      [reflexivity|now rewrite with_state_same]. }
  destruct (s_awaiting_confirmation (conversation_state a)
            && among negative_tokens (strip (lower message)));
    [reflexivity|].
  pose proof (classify_and_respond_spec L w (after_switch_check w a message)
                fs message) as Hs.
  destruct (classify_and_respond _ _ _ _ _) as [[r a'] fs']. simpl.
  destruct Hs as (_ & _ & -> & _).
  now rewrite (after_switch_check_identity w a message).
Qed.

Lemma reachable_without_key (L : Lib) (a : Assistant) (fs : Files) :
  reachable L a fs ->
  api_key a = false ->
  s_intent (conversation_state a) = None
  \/ s_intent (conversation_state a) = Some schedule_meeting.
Proof.
  induction 1 as [key uuid fs|a fs w m r a' fs' _ IH Hstep|a fs uuid _ _];
    intros Hkey; [now left| |now left].
  pose proof (process_message_identity L w a fs m) as Hid.
  rewrite Hstep in Hid. simpl in Hid.
  assert (api_key a = false) as Hk by (rewrite Hid in Hkey; exact Hkey).
  revert Hstep. unfold process_message.
  destruct (s_awaiting_confirmation (conversation_state a)
            && among affirmative_tokens (strip (lower m))).
  { destruct (execute_action _ _ _ _ _) as [[result|] fs1];
      intros [= <- <- <-]; [now left|auto]. }
  destruct (s_awaiting_confirmation (conversation_state a)
            && among negative_tokens (strip (lower m))).
  { intros [= <- <- <-]. now left. }
  unfold classify_and_respond.
  rewrite classify_intent_fallback
    by (left; now rewrite after_switch_check_identity).
  simpl. repeat case_match; intros [= <- <- <-]; now right.
Qed.

(** X2: in a program started without an API key, every reachable state
    has the committed intent none or schedule_meeting: no turn is ever
    taken as an email request or as small talk. *)
Theorem X2_no_key_never_email_or_chitchat (L : Lib) (a : Assistant)
    (fs : Files) :
  reachable L a fs ->
  api_key a = false ->
  s_intent (conversation_state a) <> Some send_email
  /\ s_intent (conversation_state a) <> Some chitchat.
Proof.
  intros Hr Hk.
  destruct (reachable_without_key L a fs Hr Hk) as [-> | ->];
    split; discriminate.
Qed.

Lemma X2_no_key_never_email_or_chitchat_witness :
  s_intent (conversation_state
              (run_turns plain_lib
                 [(monday_world, "send an email to bob@example.com");
                  (monday_world, "hello")]
                 (new_assistant false "0f0e0d0c-aaaa-4bbb-8ccc-000000000001",
                  no_files)).1)
  <> Some send_email.
Proof.
  eapply proj1, (X2_no_key_never_email_or_chitchat plain_lib).
  - apply (run_turns_reachable plain_lib
             [(monday_world, "send an email to bob@example.com");
              (monday_world, "hello")]), reach_new.
  - vm_compute. reflexivity.
Defined.

(** ** The conversation file *)

Lemma last_n_snoc {A} (n : nat) (l : list A) (x : A) :
  last (last_n (S n) (l ++ [x])) = Some x.
Proof.
  unfold last_n. rewrite length_app. simpl.
  rewrite skipn_app.
  replace (List.length l + 1 - S n - List.length l)%nat with 0%nat by lia.
  simpl. apply last_snoc.
Qed.

Lemma last_n_suffix {A} (n : nat) (l : list A) : last_n n l `suffix_of` l.
Proof.
  unfold last_n. exists (firstn (List.length l - n) l).
  symmetry. apply firstn_skipn.
Qed.

Lemma last_n_exact_length {A} (n : nat) (l : list A) :
  List.length (last_n n l) = Nat.min n (List.length l).
Proof. unfold last_n. rewrite length_skipn. lia. Qed.

Lemma save_conversation_same_assistant (w : World) (a : Assistant)
    (s : ConversationState) (fs : Files) (m r : string) (i : option Intent)
    (e : gmap string string) (c : bool) :
  save_conversation w (with_state a s) fs m r i e c
  = save_conversation w a fs m r i e c.
Proof. reflexivity. Qed.

Lemma save_conversation_log (w : World) (a : Assistant) (fs : Files)
    (m r : string) (i : option Intent) (e : gmap string string) (c : bool) :
  conversation_io_ok w ->
  conversation_log (a, save_conversation w a fs m r i e c)
  = (conversation_log (a, fs)
     ++ [{| c_session_id := session_id a;
            c_user_message := m;
            c_assistant_response := r;
            c_intent := i;
            c_entities := e;
            c_awaiting_confirmation := c;
            c_timestamp := now_iso w |}])%list.
Proof.
  intros [Hr Hw]. unfold conversation_log, save_conversation. simpl.
  rewrite Hr, Hw.
  destruct (conversations fs !! conversation_path a); simpl;
    now rewrite lookup_insert_eq.
Qed.

Lemma save_conversation_other_file (w : World) (a : Assistant) (fs : Files)
    (m r : string) (i : option Intent) (e : gmap string string) (c : bool)
    (path : string) :
  path <> conversation_path a ->
  conversations (save_conversation w a fs m r i e c) !! path
  = conversations fs !! path.
Proof.
  intros Hp. unfold save_conversation.
  destruct (_ && conversation_write_ok w); [|reflexivity].
  simpl. now rewrite lookup_insert_ne.
Qed.

(** X6: a saved exchange can be read back: after [save_conversation] in a
    world where the conversation file can be read and written, the
    history read with any positive limit ends with the exchange just saved
    (same user text, response, intent, fields and confirmation flag), and
    the conversation file of every other path is as before. *)
Theorem X6_saved_exchange_is_read_back (w w' : World) (a : Assistant)
    (fs : Files) (m r : string) (i : option Intent)
    (e : gmap string string) (c : bool) (limit : nat) :
  conversation_io_ok w ->
  conversation_read_ok w' = true ->
  last (get_conversation_history w' a (save_conversation w a fs m r i e c)
          (S limit))
  = Some {| c_session_id := session_id a;
            c_user_message := m;
            c_assistant_response := r;
            c_intent := i;
            c_entities := e;
            c_awaiting_confirmation := c;
            c_timestamp := now_iso w |}
  /\ (forall path,
        path <> conversation_path a ->
        conversations (save_conversation w a fs m r i e c) !! path
        = conversations fs !! path).
Proof.
  intros Hio Hr'. split; [|intros path; apply save_conversation_other_file].
  pose proof (save_conversation_log w a fs m r i e c Hio) as Hlog.
  unfold get_conversation_history. rewrite Hr'.
  unfold conversation_log in Hlog. simpl in Hlog.
  destruct (conversations (save_conversation w a fs m r i e c)
              !! conversation_path a) as [convs|] eqn:E; simpl in Hlog.
  - rewrite Hlog. apply last_n_snoc.
  - destruct (default [] (conversations fs !! conversation_path a));
      discriminate.
Qed.

Lemma X6_saved_exchange_is_read_back_witness :
  c_user_message <$>
    last (get_conversation_history monday_world keyed_assistant
            (save_conversation monday_world keyed_assistant no_files
               "hello" "Hello! How can I help?" (Some chitchat) ∅ false) 5)
  = Some "hello".
Proof.
  destruct (X6_saved_exchange_is_read_back monday_world monday_world
              keyed_assistant no_files "hello" "Hello! How can I help?"
              (Some chitchat) ∅ false 4) as [H _].
  - split; reflexivity.
  - reflexivity.
  - rewrite H. reflexivity.
Defined.

(** X7: [get_conversation_history] with a positive limit returns the end
    of the conversation file, as many entries as the limit or the whole
    file if it is shorter, in file order; it returns the empty list when
    the file does not exist or cannot be read. *)
Theorem X7_history_is_the_end_of_the_file (w : World) (a : Assistant)
    (fs : Files) (limit : nat) :
  (conversation_read_ok w = true ->
   get_conversation_history w a fs (S limit)
     `suffix_of` conversation_log (a, fs)
   /\ List.length (get_conversation_history w a fs (S limit))
      = Nat.min (S limit) (List.length (conversation_log (a, fs))))
  /\ (conversation_read_ok w = false \/
      conversations fs !! conversation_path a = None ->
      get_conversation_history w a fs (S limit) = []).
Proof.
  unfold get_conversation_history, conversation_log. cbn [fst snd]. split.
  - intros ->. destruct (conversations fs !! conversation_path a); cbn [default].
    + split; [apply last_n_suffix|apply last_n_exact_length].
    + split; [reflexivity|]. simpl. lia.
  - intros [-> | ->]; [reflexivity|]. now destruct (conversation_read_ok w).
Qed.

Lemma X7_history_is_the_end_of_the_file_witness :
  List.length (get_conversation_history monday_world long_pause_session.1
                 long_pause_session.2 5) = 5%nat.
Proof.
  destruct (X7_history_is_the_end_of_the_file monday_world
              long_pause_session.1 long_pause_session.2 4) as [H _].
  destruct H as [_ H]; [reflexivity|].
  rewrite H. vm_compute. reflexivity.
Defined.

(** ** What the executor writes *)

Lemma execute_action_task (w : World) (a : Assistant) (fs : Files)
    (intent : Intent) (entities : gmap string string) :
  intent <> chitchat ->
  let after_log :=
    if actions_write_ok w
    then (actions fs ++ [action_record w a intent entities])%list
    else actions fs in
  conversations (execute_action w a fs (Some intent) entities).2
  = conversations fs
  /\ actions (execute_action w a fs (Some intent) entities).2 = after_log
  /\ outbox (execute_action w a fs (Some intent) entities).2
     = (if outbox_write_ok w
        then <[outbox_file w intent := action_payload w intent entities]>
               (outbox fs)
        else outbox fs)
  /\ (is_Some (execute_action w a fs (Some intent) entities).1
      <-> outbox_write_ok w = true).
Proof.
  intros Hi. unfold execute_action, save_action, action_record, outbox_file.
  destruct intent; [| |congruence];
    destruct (actions_write_ok w), (outbox_write_ok w); simpl;
    repeat split; eauto; try (intros [? [=]]); try discriminate.
Qed.

Lemma execute_action_no_task (w : World) (a : Assistant) (fs : Files)
    (intent : option Intent) (entities : gmap string string) :
  ~ is_task intent ->
  execute_action w a fs intent entities = (Some "Action completed.", fs).
Proof.
  unfold is_task. intros H. destruct intent as [[]|]; try reflexivity;
    exfalso; apply H; auto.
Qed.

(** X8: when the action log and the outbox can be written, executing a
    task intent returns a message, leaves every conversation file as it
    is, appends to the action log exactly one record (marked executed,
    with the session identifier and the payload built from the fields),
    and stores the same payload in the outbox file named after the kind of
    action and the time stamp. *)
Theorem X8_executed_action_is_recorded (w : World) (a : Assistant)
    (fs : Files) (intent : Intent) (entities : gmap string string) :
  intent <> chitchat ->
  actions_write_ok w = true ->
  outbox_write_ok w = true ->
  is_Some (execute_action w a fs (Some intent) entities).1
  /\ conversations (execute_action w a fs (Some intent) entities).2
     = conversations fs
  /\ actions (execute_action w a fs (Some intent) entities).2
     = (actions fs ++ [action_record w a intent entities])%list
  /\ a_executed (action_record w a intent entities) = true
  /\ a_session_id (action_record w a intent entities) = session_id a
  /\ outbox (execute_action w a fs (Some intent) entities).2
       !! outbox_file w intent
     = Some (a_action_data (action_record w a intent entities))
  /\ (forall path,
        path <> outbox_file w intent ->
        outbox (execute_action w a fs (Some intent) entities).2 !! path
        = outbox fs !! path).
Proof.
  intros Hi Ha Ho.
  destruct (execute_action_task w a fs intent entities Hi)
    as (Hc & Hl & Hb & Hr).
  rewrite Ha in Hl. rewrite Ho in Hb.
  repeat split; auto.
  - now apply Hr.
  - rewrite Hb. apply lookup_insert_eq.
  - intros path Hp. rewrite Hb. now apply lookup_insert_ne.
Qed.

Lemma X8_executed_action_is_recorded_witness :
  a_action_data <$>
    last (actions (execute_action monday_world keyed_assistant no_files
                     (Some schedule_meeting) full_meeting_fields).2)
  = Some (MeetingData "Budget review" (Some "2024-03-06") (Some "3pm")
            "sam@example.com" "2024-03-05T10:15:00").
Proof.
  destruct (X8_executed_action_is_recorded monday_world keyed_assistant
              no_files schedule_meeting full_meeting_fields)
    as (_ & _ & H & _); [discriminate|reflexivity|reflexivity|].
  rewrite H. vm_compute. reflexivity.
Defined.

(** X9: the name of an outbox file holds the kind of action and the time
    stamp to the second only: when two actions of the same kind are
    executed under the same time stamp, the action log keeps both records
    but the outbox keeps one file, holding the payload of the second. *)
Theorem X9_same_second_overwrites_outbox (w1 w2 : World) (a : Assistant)
    (fs : Files) (intent : Intent) (e1 e2 : gmap string string) :
  intent <> chitchat ->
  now_stamp w1 = now_stamp w2 ->
  actions_write_ok w1 = true -> outbox_write_ok w1 = true ->
  actions_write_ok w2 = true -> outbox_write_ok w2 = true ->
  let fs1 := (execute_action w1 a fs (Some intent) e1).2 in
  let fs2 := (execute_action w2 a fs1 (Some intent) e2).2 in
  actions fs2
  = (actions fs ++ [action_record w1 a intent e1;
                    action_record w2 a intent e2])%list
  /\ outbox fs2
     = <[outbox_file w2 intent := action_payload w2 intent e2]> (outbox fs)
  /\ outbox fs2 !! outbox_file w1 intent
     = Some (action_payload w2 intent e2).
Proof.
  intros Hi Hst Ha1 Ho1 Ha2 Ho2 fs1 fs2.
  destruct (execute_action_task w1 a fs intent e1 Hi) as (_ & Hl1 & Hb1 & _).
  destruct (execute_action_task w2 a fs1 intent e2 Hi) as (_ & Hl2 & Hb2 & _).
  fold fs1 in Hl1, Hb1. fold fs2 in Hl2, Hb2.
  rewrite Ha1 in Hl1. rewrite Ho1 in Hb1.
  rewrite Ha2 in Hl2. rewrite Ho2 in Hb2.
  assert (outbox_file w1 intent = outbox_file w2 intent) as Hf
    by (unfold outbox_file; now rewrite Hst).
  rewrite Hl2, Hl1, Hb2, Hb1, Hf, <- app_assoc, insert_insert_eq.
  repeat split. apply lookup_insert_eq.
Qed.

Lemma X9_same_second_overwrites_outbox_witness :
  size (outbox
          (execute_action monday_world keyed_assistant
             (execute_action monday_world keyed_assistant no_files
                (Some schedule_meeting) full_meeting_fields).2
             (Some schedule_meeting)
             (<["title" := "Retrospective"]> full_meeting_fields)).2)
  = 1%nat.
Proof.
  destruct (X9_same_second_overwrites_outbox monday_world monday_world
              keyed_assistant no_files schedule_meeting full_meeting_fields
              (<["title" := "Retrospective"]> full_meeting_fields))
    as (_ & H & _);
    [discriminate|reflexivity|reflexivity|reflexivity|reflexivity|reflexivity|].
  rewrite H. vm_compute. reflexivity.
Defined.

(** ** What a turn writes *)

Lemma save_conversation_after_switch (w : World) (a : Assistant) (fs : Files)
    (message m r : string) (i : option Intent) (e : gmap string string)
    (c : bool) :
  save_conversation w (after_switch_check w a message) fs m r i e c
  = save_conversation w a fs m r i e c.
Proof.
  destruct (after_switch_check_cases w a message) as [->| ->]; reflexivity.
Qed.

(** A turn either only saves its exchange, or is the execution of a task
    on an affirmative reply. *)
Lemma process_message_cases (L : Lib) (w : World) (a : Assistant) (fs : Files)
    (message : string) :
  let p := process_message L w a fs message in
  let s := conversation_state a in
  (exists response i e c,
      p.1.1 = Some response
      /\ p.2 = save_conversation w a fs message response i e c)
  \/ (exists intent,
        s_intent s = Some intent /\ intent <> chitchat
        /\ s_awaiting_confirmation s = true /\ is_affirmative message
        /\ match (execute_action w a fs (Some intent) (s_entities s)).1 with
           | Some response =>
               p.1.1 = Some response
               /\ p.2 = save_conversation w a
                          (execute_action w a fs (Some intent) (s_entities s)).2
                          message response (Some intent) (s_entities s) false
           | None =>
               p.1.1 = None
               /\ p.2 = (execute_action w a fs (Some intent) (s_entities s)).2
           end).
Proof.
  intros p s. subst p. unfold process_message. fold s.
  destruct (s_awaiting_confirmation s) eqn:Ea;
    rewrite ?andb_true_l, ?andb_false_l.
  - destruct (among affirmative_tokens (strip (lower message))) eqn:Ey.
    + apply among_affirmative in Ey.
      destruct (s_intent s) as [[]|] eqn:Ei.
      * right. exists schedule_meeting.
        do 4 (split; [auto; discriminate|]).
        now destruct (execute_action _ _ _ _ _) as [[r|] fs1].
      * right. exists send_email.
        do 4 (split; [auto; discriminate|]).
        now destruct (execute_action _ _ _ _ _) as [[r|] fs1].
      * left. rewrite execute_action_no_task
          by (intros [H|H]; discriminate).
        cbn [fst snd]. eauto 10.
      * left. rewrite execute_action_no_task
          by (intros [H|H]; discriminate).
        cbn [fst snd]. eauto 10.
    + destruct (among negative_tokens (strip (lower message))).
      * left. cbn [fst snd]. eauto 10.
      * left. unfold classify_and_respond.
        repeat case_match; cbn [fst snd];
          rewrite save_conversation_after_switch; eauto 10.
  - left. unfold classify_and_respond.
    repeat case_match; cbn [fst snd];
      rewrite save_conversation_after_switch; eauto 10.
Qed.



(** X11: a turn that returns a response is logged: when the conversation
    file can be read and written, the file afterwards is the file before
    followed by one entry that carries the user text, the response
    returned, the session identifier and the time; a turn that raises
    leaves every conversation file as it was. *)
Theorem X11_returned_turn_is_logged (L : Lib) (w : World) (a : Assistant)
    (fs : Files) (message : string) :
  conversation_io_ok w ->
  match (process_message L w a fs message).1.1 with
  | Some response =>
      exists entry,
        conversation_log (a, (process_message L w a fs message).2)
        = (conversation_log (a, fs) ++ [entry])%list
        /\ c_user_message entry = message
        /\ c_assistant_response entry = response
        /\ c_session_id entry = session_id a
        /\ c_timestamp entry = now_iso w
  | None =>
      conversations (process_message L w a fs message).2 = conversations fs
  end.
Proof.
  intros Hio.
  destruct (process_message_cases L w a fs message)
    as [(r & i & e & c & -> & ->)|(intent & Hi & Ht & Ha & Hy & H)].
  - eexists. rewrite save_conversation_log by exact Hio.
    repeat split; reflexivity.
  - destruct (execute_action_task w a fs intent
                (s_entities (conversation_state a)) Ht) as (Hc & _).
    destruct (execute_action _ _ _ _ _).1 as [response|];
      destruct H as [-> ->]; [|exact Hc].
    eexists. rewrite save_conversation_log by exact Hio.
    unfold conversation_log. cbn [fst snd]. rewrite Hc.
    repeat split; reflexivity.
Qed.

Lemma X11_returned_turn_is_logged_witness :
  List.length
    (conversation_log
       (keyed_assistant,
        (process_message plain_lib chitchat_turn_world keyed_assistant
           no_files "hello there").2)) = 1%nat.
Proof.
  pose proof (X11_returned_turn_is_logged plain_lib chitchat_turn_world
                keyed_assistant no_files "hello there") as H.
  destruct ((process_message plain_lib chitchat_turn_world keyed_assistant
               no_files "hello there").1.1) eqn:E.
  - destruct H as (entry & -> & _); [split; reflexivity|]. reflexivity.
  - vm_compute in E. discriminate.
Defined.

(** X12: a turn writes to no conversation file but the one of its own
    session, and it changes neither the API key setting, nor the session
    identifier, nor the name of the conversation file: only the state
    dictionary of the assistant can differ afterwards. *)
Theorem X12_turn_stays_in_its_session (L : Lib) (w : World) (a : Assistant)
    (fs : Files) (message : string) :
  (forall path,
      path <> conversation_path a ->
      conversations (process_message L w a fs message).2 !! path
      = conversations fs !! path)
  /\ api_key (process_message L w a fs message).1.2 = api_key a
  /\ session_id (process_message L w a fs message).1.2 = session_id a
  /\ conversation_file (process_message L w a fs message).1.2
     = conversation_file a.
Proof.
  split.
  - intros path Hp.
    destruct (process_message_cases L w a fs message)
      as [(r & i & e & c & _ & ->)|(intent & Hi & Ht & Ha & Hy & H)].
    + now apply save_conversation_other_file.
    + destruct (execute_action_task w a fs intent
                  (s_entities (conversation_state a)) Ht) as (Hc & _).
      destruct (execute_action _ _ _ _ _).1; destruct H as [_ ->].
      * rewrite save_conversation_other_file by exact Hp. now rewrite Hc.
      * now rewrite Hc.
  - rewrite (process_message_identity L w a fs message). auto.
Qed.

(** ** The chat handlers *)

(** X13: [respond] ignores a message that is empty or white space only:
    the chat history comes back as it was with an empty side panel text,
    and neither the assistant nor any file is touched.  For any other
    message the turn is processed once; if it returns, the chat history
    grows by exactly one pair, the message and the response of the turn,
    and the text box is cleared; if it raises, so does [respond]. *)
Theorem X13_respond (L : Lib) (w : World) (a : Assistant) (fs : Files)
    (message : string) (chat_history : list (string * string)) :
  (whitespace_only message = true ->
   respond L w a fs message chat_history
   = (Some (chat_history, EmptyString, EmptyString), a, fs))
  /\ (whitespace_only message = false ->
      match process_message L w a fs message with
      | (Some response, a', fs') =>
          respond L w a fs message chat_history
          = (Some ((chat_history ++ [(message, response)])%list, EmptyString,
                   _get_state_info L w a' fs'), a', fs')
      | (None, a', fs') =>
          respond L w a fs message chat_history = (None, a', fs')
      end).
Proof.
  unfold respond, chat_function. split; intros H.
  - apply strip_whitespace_only in H. now rewrite H.
  - destruct (truthy (strip message)) eqn:E.
    + simpl. now destruct (process_message L w a fs message) as [[[r|] a'] fs'].
    + apply truthy_false, strip_whitespace_only in E. congruence.
Qed.

Lemma X13_respond_witness :
  (respond plain_lib chitchat_turn_world keyed_assistant no_files "   "
     [("hi", "Hello!")]).1.1
  = Some ([("hi", "Hello!")], EmptyString, EmptyString).
Proof.
  destruct (X13_respond plain_lib chitchat_turn_world keyed_assistant no_files
              "   " [("hi", "Hello!")]) as [H _].
  rewrite H; reflexivity.
Defined.

(** ** History and the merge *)

Lemma latest_usable_origin (intent : Intent) (key value : string)
    (history : list Conv) :
  latest_usable intent key history = Some value ->
  usable_value value = true
  /\ exists conv,
       In conv history /\ c_intent conv = Some intent
       /\ c_entities conv !! key = Some value.
Proof.
  induction history as [|conv rest IH]; [discriminate|].
  cbn [latest_usable].
  destruct (latest_usable intent key rest) as [v|].
  - intros [= ->]. destruct (IH eq_refl) as (Hu & c & Hin & Hc).
    split; [exact Hu|]. exists c. split; [now right|exact Hc].
  - destruct (bool_decide (c_intent conv = Some intent)) eqn:Ei;
      [|discriminate].
    apply bool_decide_eq_true in Ei.
    destruct (c_entities conv !! key) as [v|] eqn:Ev; [|discriminate].
    destruct (usable_value v) eqn:Eu; [|discriminate].
    intros [= ->]. split; [exact Eu|].
    exists conv. split; [now left|auto].
Qed.

(** X14: every field that [extract_entities_with_context] takes from the
    history comes from an entry, among the five latest, that was recorded
    for the very intent of the turn, and its value is neither empty, nor
    white space only, nor "N/A": fields gathered for the other task are
    never merged in. *)
Theorem X14_merged_history_is_same_intent (L : Lib) (w : World)
    (a : Assistant) (fs : Files) (intent : Intent) (key value : string) :
  (previous_of_history L intent (get_conversation_history w a fs 5)).1 !! key
  = Some value ->
  value <> EmptyString /\ whitespace_only value = false /\ value <> "N/A"
  /\ exists conv,
       In conv (get_conversation_history w a fs 5)
       /\ c_intent conv = Some intent
       /\ c_entities conv !! key = Some value.
Proof.
  rewrite previous_of_history_lookup. intros H.
  apply latest_usable_origin in H as (Hu & Hconv).
  unfold usable_value in Hu.
  apply andb_true_iff in Hu as [Hu Hs]. apply andb_true_iff in Hu as [Ht Hn].
  repeat split; [| | |exact Hconv].
  - intros ->. discriminate.
  - destruct (whitespace_only value) eqn:E; [|reflexivity].
    apply strip_whitespace_only in E. rewrite E in Hs. discriminate.
  - intros ->. discriminate.
Qed.

Lemma X14_merged_history_is_same_intent_witness :
  exists conv,
    In conv (get_conversation_history monday_world gathering_email_session.1
               gathering_email_session.2 5)
    /\ c_intent conv = Some send_email
    /\ c_entities conv !! "recipient" = Some "bob@example.com".
Proof.
  apply (X14_merged_history_is_same_intent plain_lib monday_world
           gathering_email_session.1 gathering_email_session.2 send_email
           "recipient" "bob@example.com").
  vm_compute. reflexivity.
Defined.

Lemma usable_not_blank (entities : gmap string string) (key value : string) :
  entities !! key = Some value -> usable_value value = true ->
  blank entities key = false.
Proof.
  intros He Hu. unfold blank. rewrite He. unfold usable_value in Hu.
  apply andb_true_iff in Hu as [Hu Hs]. apply andb_true_iff in Hu as [Ht _].
  now rewrite Ht, Hs.
Qed.

(** X15: a field is not asked for twice: when one of the five latest
    entries of the conversation file, recorded for the intent of the turn,
    holds a usable value for a field and the current extraction yields
    nothing for it, the field is not among the missing fields of the
    turn. *)
Theorem X15_known_field_is_not_missing (L : Lib) (w : World) (a : Assistant)
    (fs : Files) (user_input : string) (intent : Intent) (key value : string) :
  let history := get_conversation_history w a fs 5 in
  let previous := previous_of_history L intent history in
  latest_usable intent key history = Some value ->
  extracted_entities L w a user_input intent previous.2 previous.1 !! key
  = None ->
  extract_entities_with_context L w a fs user_input intent !! key = Some value
  /\ ~ In key
        (get_missing_fields intent
           (extract_entities_with_context L w a fs user_input intent)).
Proof.
  intros history previous Hl He.
  assert (extract_entities_with_context L w a fs user_input intent !! key
          = Some value) as Hv.
  { unfold extract_entities_with_context. fold history.
    unfold previous in He.
    destruct (previous_of_history L intent history) as [prev context] eqn:Ep.
    rewrite merge_entities_lookup. simpl in He. rewrite He.
    rewrite <- Hl, <- (previous_of_history_lookup L). now rewrite Ep. }
  split; [exact Hv|].
  rewrite get_missing_fields_filter, filter_In. intros [_ Hb].
  apply latest_usable_origin in Hl as [Hu _].
  rewrite (usable_not_blank _ _ _ Hv Hu) in Hb. discriminate.
Qed.

Lemma X15_known_field_is_not_missing_witness :
  ~ In "recipient"
      (get_missing_fields send_email
         (extract_entities_with_context plain_lib body_turn_world
            gathering_email_session.1 gathering_email_session.2
            "tell him see you at noon" send_email)).
Proof.
  eapply proj2, (X15_known_field_is_not_missing plain_lib body_turn_world
                   gathering_email_session.1 gathering_email_session.2
                   "tell him see you at noon" send_email "recipient"
                   "bob@example.com");
    vm_compute; reflexivity.
Defined.

Lemma last_n_S_snoc {A} (n : nat) (l : list A) (x : A) :
  last_n (S n) (l ++ [x]) = (last_n n l ++ [x])%list.
Proof.
  unfold last_n. rewrite length_app. simpl. rewrite skipn_app.
  replace (List.length l + 1 - S n)%nat with (List.length l - n)%nat by lia.
  replace (List.length l - n - List.length l)%nat with 0%nat by lia.
  reflexivity.
Qed.

Lemma latest_usable_snoc (intent : Intent) (key : string) (l : list Conv)
    (conv : Conv) :
  latest_usable intent key (l ++ [conv])
  = match latest_usable intent key [conv] with
    | Some value => Some value
    | None => latest_usable intent key l
    end.
Proof.
  induction l as [|c l IH].
  { change ([] ++ [conv])%list with [conv].
    now destruct (latest_usable intent key [conv]). }
  change ((c :: l) ++ [conv])%list with (c :: (l ++ [conv]))%list.
  rewrite (latest_usable_cons intent key c (l ++ [conv])),
    (latest_usable_cons intent key c l), IH.
  destruct (latest_usable intent key [conv]); reflexivity.
Qed.

Lemma extract_keeps_latest (L : Lib) (w : World) (a : Assistant) (fs : Files)
    (user_input : string) (intent : Intent) (key value : string) :
  latest_usable intent key (get_conversation_history w a fs 5) = Some value ->
  extracted_entities L w a user_input intent
    (previous_of_history L intent (get_conversation_history w a fs 5)).2
    (previous_of_history L intent (get_conversation_history w a fs 5)).1
    !! key = None ->
  extract_entities_with_context L w a fs user_input intent !! key = Some value.
Proof.
  intros Hl He. unfold extract_entities_with_context.
  destruct (previous_of_history L intent (get_conversation_history w a fs 5))
    as [prev context] eqn:Ep.
  rewrite merge_entities_lookup. simpl in He. rewrite He.
  rewrite <- Hl, <- (previous_of_history_lookup L). now rewrite Ep.
Qed.

(** X16: confirming an action resets the state but not the history: after
    a yes has executed a task, every usable field of that task is still
    the latest value on file for its intent, so the next turn classified
    to the same intent starts with those fields filled in unless the new
    extraction replaces them. *)
Theorem X16_executed_fields_prefill_next_request (L : Lib) (w w2 : World)
    (a : Assistant) (fs : Files) (message user_input : string)
    (intent : Intent) (key value : string) :
  conversation_io_ok w ->
  outbox_write_ok w = true ->
  conversation_read_ok w2 = true ->
  s_awaiting_confirmation (conversation_state a) = true ->
  is_affirmative message ->
  s_intent (conversation_state a) = Some intent ->
  intent <> chitchat ->
  s_entities (conversation_state a) !! key = Some value ->
  usable_value value = true ->
  let after := process_message L w a fs message in
  conversation_state after.1.2 = fresh_state
  /\ latest_usable intent key (get_conversation_history w2 after.1.2 after.2 5)
     = Some value
  /\ (extracted_entities L w2 after.1.2 user_input intent
        (previous_of_history L intent
           (get_conversation_history w2 after.1.2 after.2 5)).2
        (previous_of_history L intent
           (get_conversation_history w2 after.1.2 after.2 5)).1
        !! key = None ->
      extract_entities_with_context L w2 after.1.2 after.2 user_input intent
        !! key = Some value).
Proof.
  intros Hio Ho Hr2 Ha Hy Hi Ht He Hu after.
  destruct (execute_action_task w a fs intent
              (s_entities (conversation_state a)) Ht) as (Hc & _ & _ & Hsome).
  destruct (proj2 Hsome Ho) as [result Hres].
  assert (after
          = (Some result, with_state a fresh_state,
             save_conversation w a
               (execute_action w a fs (Some intent)
                  (s_entities (conversation_state a))).2
               message result (Some intent)
               (s_entities (conversation_state a)) false)) as Hafter.
  { unfold after. rewrite process_message_affirmative by assumption.
    rewrite Hi.
    destruct (execute_action w a fs (Some intent)
                (s_entities (conversation_state a))) as [r fs1].
    simpl in Hres. now rewrite Hres. }
  assert (latest_usable intent key
            (get_conversation_history w2 after.1.2 after.2 5) = Some value)
    as Hlatest.
  { rewrite Hafter. cbn [fst snd].
    pose proof (save_conversation_log w a
                  (execute_action w a fs (Some intent)
                     (s_entities (conversation_state a))).2
                  message result (Some intent)
                  (s_entities (conversation_state a)) false Hio) as Hlog.
    unfold conversation_log in Hlog. cbn [fst snd] in Hlog.
    unfold get_conversation_history. rewrite Hr2.
    change (conversation_path (with_state a fresh_state))
      with (conversation_path a).
    destruct (conversations (save_conversation _ _ _ _ _ _ _ _)
                !! conversation_path a) as [convs|] eqn:E;
      cbn [default from_option] in Hlog; unfold id in Hlog.
    - rewrite Hlog, last_n_S_snoc, latest_usable_snoc.
      cbn [latest_usable c_intent c_entities].
      rewrite bool_decide_eq_true_2 by reflexivity.
      now rewrite He, Hu.
    - symmetry in Hlog. apply app_eq_nil in Hlog as [_ Hlog].
      discriminate. }
  split; [now rewrite Hafter|]. split; [exact Hlatest|].
  intros Hnone. now apply extract_keeps_latest.
Qed.

Lemma X16_executed_fields_prefill_next_request_witness :
  extract_entities_with_context plain_lib bare_email_turn_world
    (process_message plain_lib chitchat_turn_world awaiting_email_session.1
       awaiting_email_session.2 "yes").1.2
    (process_message plain_lib chitchat_turn_world awaiting_email_session.1
       awaiting_email_session.2 "yes").2
    "send another email" send_email !! "recipient"
  = Some "bob@example.com".
Proof.
  eapply (X16_executed_fields_prefill_next_request plain_lib
            chitchat_turn_world bare_email_turn_world
            awaiting_email_session.1 awaiting_email_session.2 "yes"
            "send another email" send_email "recipient" "bob@example.com");
    try (vm_compute; reflexivity).
  - split; reflexivity.
  - vm_compute. tauto.
  - discriminate.
Defined.

(** ** The confirmation message *)

Lemma prefix_refl (s : string) : String.prefix s s = true.
Proof.
  induction s as [|c s IH]; [reflexivity|]. simpl.
  now destruct (ascii_dec c c).
Qed.

Lemma contains_refl (s : string) : contains s s = true.
Proof. destruct s; simpl; [reflexivity|]. now destruct (ascii_dec a a); rewrite ?prefix_refl. Qed.

Lemma contains_middle (sub before after : string) :
  contains sub (before +:+ sub +:+ after) = true.
Proof. apply contains_append_r, contains_append_l, contains_refl. Qed.

Lemma not_blank_value (entities : gmap string string) (key : string) :
  blank entities key = false ->
  exists value, entities !! key = Some value /\ truthy value = true.
Proof.
  unfold blank. destruct (entities !! key) as [value|]; [|discriminate].
  intros H. apply orb_false_iff in H as [H _].
  apply negb_false_iff in H. eauto.
Qed.

Ltac find_in_concatenation :=
  repeat match goal with
    | |- contains ?v ?v = true => apply contains_refl
    | |- contains ?v (?v +:+ _) = true =>
        apply contains_append_l, contains_refl
    | |- contains _ (_ +:+ _) = true => apply contains_append_r
    end.

Lemma generate_confirmation_meeting (entities : gmap string string)
    (title date time participants : string) :
  entities !! "title" = Some title ->
  entities !! "date" = Some date ->
  entities !! "time" = Some time ->
  entities !! "participants" = Some participants ->
  truthy participants = true ->
  generate_confirmation schedule_meeting entities
  = "Do you want me to book '" +:+ title +:+ "' on " +:+ date +:+ " at "
    +:+ time +:+ " with " +:+ participants +:+ "?".
Proof.
  intros H1 H2 H3 H4 Ht. unfold generate_confirmation.
  rewrite H1, H2, H3, H4. simpl. rewrite Ht.
  now rewrite !append_assoc.
Qed.

Lemma generate_confirmation_email (entities : gmap string string)
    (recipient body : string) :
  entities !! "recipient" = Some recipient ->
  entities !! "body" = Some body ->
  exists clause,
    generate_confirmation send_email entities
    = "Do you want me to send an email to " +:+ recipient +:+ clause
      +:+ " saying: '" +:+ body +:+ "'?".
Proof.
  intros H1 H2. unfold generate_confirmation. rewrite H1, H2. simpl.
  destruct (truthy (default EmptyString (entities !! "subject"))).
  - exists (" with subject '" +:+ default EmptyString (entities !! "subject")
            +:+ "'").
    rewrite !append_assoc. reflexivity.
  - exists EmptyString. rewrite !append_assoc. reflexivity.
Qed.

(** X17: when no required field of a task intent is missing, the
    confirmation question shows the value of every required field: title,
    date, time and participants for a meeting, recipient and body for an
    email. *)
Theorem X17_confirmation_shows_every_field (intent : Intent)
    (entities : gmap string string) (key : string) :
  get_missing_fields intent entities = [] ->
  In key (required_fields intent) ->
  exists value,
    entities !! key = Some value
    /\ value <> EmptyString
    /\ contains value (generate_confirmation intent entities) = true.
Proof.
  intros Hm Hin.
  assert (forall k, In k (required_fields intent) ->
                    exists v, entities !! k = Some v /\ truthy v = true)
    as Hb.
  { intros k Hk. apply not_blank_value.
    destruct (blank entities k) eqn:E; [|reflexivity].
    assert (In k (get_missing_fields intent entities)) as Hmiss
      by (rewrite get_missing_fields_filter; apply filter_In; auto).
    rewrite Hm in Hmiss. destruct Hmiss. }
  destruct (Hb key Hin) as (value & Hv & Ht).
  exists value. split; [exact Hv|]. split; [now intros ->|].
  destruct intent; [| |destruct Hin].
  - destruct (Hb "title" ltac:(simpl; auto)) as (t & H1 & _).
    destruct (Hb "date" ltac:(simpl; auto)) as (d & H2 & _).
    destruct (Hb "time" ltac:(simpl; auto)) as (tm & H3 & _).
    destruct (Hb "participants" ltac:(simpl; auto)) as (p & H4 & Hp).
    rewrite (generate_confirmation_meeting entities t d tm p) by assumption.
    simpl in Hin. destruct Hin as [<-|[<-|[<-|[<-|[]]]]];
      simplify_eq; find_in_concatenation.
  - destruct (Hb "recipient" ltac:(simpl; auto)) as (r & H1 & _).
    destruct (Hb "body" ltac:(simpl; auto)) as (b & H2 & _).
    destruct (generate_confirmation_email entities r b H1 H2) as [clause ->].
    simpl in Hin. destruct Hin as [<-|[<-|[]]];
      simplify_eq; find_in_concatenation.
Qed.

Lemma X17_confirmation_shows_every_field_witness :
  exists value,
    full_meeting_fields !! "participants" = Some value
    /\ value <> EmptyString
    /\ contains value (generate_confirmation schedule_meeting full_meeting_fields)
       = true.
Proof.
  apply (X17_confirmation_shows_every_field schedule_meeting
           full_meeting_fields "participants").
  - vm_compute. reflexivity.
  - simpl. auto.
Defined.

(** ** Case and surrounding white space of a date expression *)

(** X18: [_parse_date] does not depend on the case of its argument nor on
    white space around it: the lower-cased argument, the trimmed argument
    and the argument itself are normalised to the same string. *)
Theorem X18_parse_date_ignores_case_and_padding (L : Lib) (w : World)
    (date_str : string) :
  _parse_date L w (lower date_str) = _parse_date L w date_str
  /\ _parse_date L w (strip date_str) = _parse_date L w date_str
  /\ _parse_date L w (_parse_date_normal_form date_str)
     = _parse_date L w date_str.
Proof.
  unfold _parse_date, _parse_date_normal_form.
  rewrite lower_idem.
  rewrite (lower_strip date_str), strip_idem.
  rewrite (lower_strip (lower date_str)), lower_idem, strip_idem.
  auto.
Qed.

Example parse_date_padding_ex :
  _parse_date plain_lib monday_world "  ToMorrow " = "2024-03-05".
Proof. reflexivity. Qed.

(** ** Fields read from a reply of the endpoint *)

Lemma lower_empty (s : string) : lower s = EmptyString -> s = EmptyString.
Proof. destruct s; [reflexivity|discriminate]. Qed.

Lemma truthy_strip_not_blank (s : string) :
  truthy (strip s) = true -> whitespace_only (strip s) = false.
Proof.
  intros H. destruct (whitespace_only (strip s)) eqn:E; [|reflexivity].
  apply strip_whitespace_only in E. rewrite strip_idem in E.
  rewrite E in H. discriminate.
Qed.

Lemma digit_solid (d : Z) :
  exists c, digit d = String c EmptyString /\ is_space c = false.
Proof.
  unfold digit. eexists. split; [reflexivity|].
  pose proof (Z.mod_pos_bound d 10 ltac:(lia)) as Hb.
  assert (Z.to_nat (d mod 10) < 10)%nat as Hk by lia.
  destruct (Z.to_nat (d mod 10)) as [|[|[|[|[|[|[|[|[|[|k]]]]]]]]]];
    try reflexivity. lia.
Qed.

Lemma strftime_ymd_not_blank (d : Z) : whitespace_only (strftime_ymd d) = false.
Proof.
  unfold strftime_ymd. destruct (ord2ymd d) as [[y m] day].
  unfold pad4. destruct (digit_solid (y / 1000)) as (c & -> & Hc).
  rewrite !append_cons. cbn [whitespace_only]. now rewrite Hc.
Qed.

Lemma _parse_date_not_blank (L : Lib) (w : World) (date_str : string) :
  whitespace_only date_str = false ->
  whitespace_only (_parse_date L w date_str) = false.
Proof.
  intros H. unfold _parse_date.
  repeat (case_match; try apply strftime_ymd_not_blank).
  destruct (whitespace_only (strip (lower date_str))) eqn:E; [|reflexivity].
  apply strip_whitespace_only in E. rewrite strip_idem in E.
  rewrite <- lower_strip in E. apply lower_empty in E.
  apply strip_whitespace_only in E. congruence.
Qed.

Lemma fold_left_invariant {A B} (P : A -> Prop) (f : A -> B -> A)
    (l : list B) (x : A) :
  (forall y b, P y -> P (f y b)) -> P x -> P (fold_left f l x).
Proof.
  intros Hf. revert x. induction l as [|b l IH]; intros x Hx; [exact Hx|].
  apply IH, Hf, Hx.
Qed.

Lemma tagged_value_not_blank (tag line : string) :
  tagged tag line = true -> whitespace_only (after_tag tag line) = false.
Proof.
  unfold tagged, after_tag. intros H. apply andb_true_iff in H as [_ H].
  now apply truthy_strip_not_blank.
Qed.

Lemma read_email_line_clean (entities : gmap string string) (line : string) :
  (forall key value,
      entities !! key = Some value ->
      In key ["recipient"; "subject"; "body"] /\ whitespace_only value = false) ->
  forall key value,
    read_email_line entities line !! key = Some value ->
    In key ["recipient"; "subject"; "body"] /\ whitespace_only value = false.
Proof.
  intros Hinv key value. unfold read_email_line.
  repeat case_match; try apply Hinv;
    (destruct (decide (key = "recipient")) as [->|];
     [|destruct (decide (key = "subject")) as [->|];
       [|destruct (decide (key = "body")) as [->|]]]);
    rewrite ?lookup_insert_eq, ?lookup_insert_ne by congruence;
    try apply Hinv;
    intros [= <-]; (split; [simpl; auto|now apply tagged_value_not_blank]).
Qed.

Lemma read_meeting_line_clean (entities : gmap string string) (line : string) :
  (forall key value,
      entities !! key = Some value ->
      In key ["title"; "date"; "time"; "participants"]
      /\ whitespace_only value = false) ->
  forall key value,
    read_meeting_line entities line !! key = Some value ->
    In key ["title"; "date"; "time"; "participants"]
    /\ whitespace_only value = false.
Proof.
  intros Hinv key value. unfold read_meeting_line.
  repeat case_match; try apply Hinv;
    (destruct (decide (key = "title")) as [->|];
     [|destruct (decide (key = "date")) as [->|];
       [|destruct (decide (key = "time")) as [->|];
         [|destruct (decide (key = "participants")) as [->|]]]]);
    rewrite ?lookup_insert_eq, ?lookup_insert_ne by congruence;
    try apply Hinv;
    intros [= <-]; (split; [simpl; auto|now apply tagged_value_not_blank]).
Qed.

(** X19: when the endpoint answers an extraction prompt with a reply that
    does not start with "INTENT:", the fields read from the reply have
    keys of the schema only (recipient, subject, body for an email; title,
    date, time, participants for a meeting) and never an empty or
    white-space-only value, the normalised date included: a tag left
    empty in the reply yields no field. *)
Theorem X19_reply_fields_are_never_blank (L : Lib) (w : World) (a : Assistant)
    (user_input context : string) (previous_entities : gmap string string)
    (key value : string) :
  api_key a = true ->
  (forall content,
      gemini_post w (email_prompt L user_input context previous_entities)
      = Some content ->
      startswith (strip content) "INTENT:" = false ->
      _extract_email_entities_with_context L w a user_input context
        previous_entities !! key = Some value ->
      In key ["recipient"; "subject"; "body"]
      /\ whitespace_only value = false)
  /\ (forall content,
        gemini_post w (meeting_prompt L user_input context previous_entities)
        = Some content ->
        startswith (strip content) "INTENT:" = false ->
        _extract_meeting_entities_with_context L w a user_input context
          previous_entities !! key = Some value ->
        In key ["title"; "date"; "time"; "participants"]
        /\ whitespace_only value = false).
Proof.
  intros Hkey. split; intros content Hpost Hstart.
  - unfold _extract_email_entities_with_context, call_gemini.
    rewrite Hkey, Hpost. cbn [negb andb]. rewrite Hstart. cbn [negb].
    revert key value.
    apply (fold_left_invariant
             (fun m : gmap string string =>
                forall key value,
                  m !! key = Some value ->
                  In key ["recipient"; "subject"; "body"]
                  /\ whitespace_only value = false)).
    + intros m line Hm. now apply read_email_line_clean.
    + intros key value H. rewrite lookup_empty in H. discriminate.
  - unfold _extract_meeting_entities_with_context, call_gemini.
    rewrite Hkey, Hpost. cbn [negb andb]. rewrite Hstart. cbn [negb].
    assert (forall key value,
              fold_left read_meeting_line (split nl (strip content)) ∅ !! key
              = Some value ->
              In key ["title"; "date"; "time"; "participants"]
              /\ whitespace_only value = false) as Hclean.
    { apply (fold_left_invariant
               (fun m : gmap string string =>
                  forall key value,
                    m !! key = Some value ->
                    In key ["title"; "date"; "time"; "participants"]
                    /\ whitespace_only value = false)).
      - intros m line Hm. now apply read_meeting_line_clean.
      - intros k v H. rewrite lookup_empty in H. discriminate. }
    destruct (fold_left read_meeting_line (split nl (strip content)) ∅
                !! "date") as [d|] eqn:Ed; [|apply Hclean].
    destruct (decide (key = "date")) as [->|Hne].
    + rewrite lookup_insert_eq. intros [= <-].
      split; [simpl; auto|].
      apply _parse_date_not_blank. now apply (Hclean "date").
    + rewrite lookup_insert_ne by congruence. apply Hclean.
Qed.

Lemma X19_reply_fields_are_never_blank_witness :
  In "recipient" ["recipient"; "subject"; "body"]
  /\ whitespace_only "bob@example.com" = false.
Proof.
  destruct (X19_reply_fields_are_never_blank plain_lib recipient_turn_world
              keyed_assistant "send an email to bob@example.com" EmptyString
              ∅ "recipient" "bob@example.com" eq_refl) as [H _].
  apply (H ("RECIPIENT: bob@example.com" +:+ nl +:+ "SUBJECT:" +:+ nl
            +:+ "BODY:"));
    vm_compute; reflexivity.
Defined.

(** ** A new chat *)

(** X20: after [reset_session] to an identifier whose conversation file
    does not exist yet, the state is the fresh one, the API key setting is
    kept, no history is read back whatever the limit, and the fields of
    the first task turn are exactly those the extractor yields for the
    input, with no context and no previously known field: nothing of the
    earlier session is merged in. *)
Theorem X20_new_chat_starts_without_history (L : Lib) (w : World)
    (a : Assistant) (fs : Files) (uuid user_input : string) (intent : Intent) :
  conversations fs !! ("conversations/" +:+ file_of_session uuid) = None ->
  (new_chat a uuid).2 = reset_session a uuid
  /\ conversation_state (reset_session a uuid) = fresh_state
  /\ api_key (reset_session a uuid) = api_key a
  /\ (forall limit,
        get_conversation_history w (reset_session a uuid) fs limit = [])
  /\ extract_entities_with_context L w (reset_session a uuid) fs user_input
       intent
     = extracted_entities L w (reset_session a uuid) user_input intent
         EmptyString ∅.
Proof.
  intros Hnone.
  assert (forall limit,
            get_conversation_history w (reset_session a uuid) fs limit = [])
    as Hh.
  { intros limit. unfold get_conversation_history.
    change (conversation_path (reset_session a uuid))
      with ("conversations/" +:+ file_of_session uuid).
    rewrite Hnone. now destruct (conversation_read_ok w). }
  repeat split; auto.
  unfold extract_entities_with_context. rewrite Hh. cbn [previous_of_history].
  unfold merge_entities. apply (right_id_L ∅ (∪)).
Qed.

Lemma X20_new_chat_starts_without_history_witness :
  extract_entities_with_context plain_lib bare_email_turn_world
    (reset_session gathering_email_session.1
       "9a8b7c6d-1111-4222-8333-444444444444")
    gathering_email_session.2 "send an email" send_email !! "recipient"
  = None.
Proof.
  destruct (X20_new_chat_starts_without_history plain_lib
              bare_email_turn_world gathering_email_session.1
              gathering_email_session.2
              "9a8b7c6d-1111-4222-8333-444444444444" "send an email"
              send_email) as (_ & _ & _ & _ & H).
  - vm_compute. reflexivity.
  - rewrite H. vm_compute. reflexivity.
Defined.

(** ** Step 1 when the executor fails *)

(** C2, evaluated where the code departs from the claim.  With the
    confirmation flag up for a task intent, a turn whose trimmed,
    lower-cased text is one of yes, y, confirm, ok, okay, sure calls the
    executor with the committed intent and the current fields; when the
    write to the outbox fails the executor raises, so the turn raises with
    it: no message is returned, the state is not reset (the assistant is
    unchanged and still awaits the confirmation), no conversation entry is
    written, and the action log already holds the record of the action
    when that write succeeded. *)
Theorem C2_affirmative_reply_raises_when_outbox_fails (L : Lib) (w : World)
    (a : Assistant) (fs : Files) (message : string) (intent : Intent) :
  s_awaiting_confirmation (conversation_state a) = true ->
  is_affirmative message ->
  s_intent (conversation_state a) = Some intent ->
  intent <> chitchat ->
  outbox_write_ok w = false ->
  (process_message L w a fs message).1.1 = None
  /\ (process_message L w a fs message).1.2 = a
  /\ mode (conversation_state (process_message L w a fs message).1.2)
     = awaiting
  /\ conversation_state (process_message L w a fs message).1.2 <> fresh_state
  /\ conversations (process_message L w a fs message).2 = conversations fs
  /\ outbox (process_message L w a fs message).2 = outbox fs
  /\ actions (process_message L w a fs message).2
     = (if actions_write_ok w
        then (actions fs
              ++ [action_record w a intent
                    (s_entities (conversation_state a))])%list
        else actions fs).
Proof.
  intros Ha Hy Hi Ht Ho.
  destruct (execute_action_task w a fs intent
              (s_entities (conversation_state a)) Ht)
    as (Hc & Hl & Hb & Hsome).
  rewrite Ho in Hb.
  assert (process_message L w a fs message
          = (None, a,
             (execute_action w a fs (Some intent)
                (s_entities (conversation_state a))).2)) as Hp.
  { rewrite process_message_affirmative by assumption. rewrite Hi.
    destruct (execute_action w a fs (Some intent)
                (s_entities (conversation_state a))) as [[result|] fs1];
      [|reflexivity].
    assert (outbox_write_ok w = true) by (apply Hsome; simpl; eauto).
    congruence. }
  rewrite Hp. cbn [fst snd].
  repeat split; auto.
  - unfold mode. now rewrite Ha.
  - intros Hf. rewrite Hf in Ha. discriminate.
Qed.

Lemma C2_affirmative_reply_raises_when_outbox_fails_witness :
  (process_message plain_lib outbox_down_world awaiting_email_session.1
     awaiting_email_session.2 "yes").1.1 = None
  /\ mode (conversation_state
             (process_message plain_lib outbox_down_world
                awaiting_email_session.1 awaiting_email_session.2 "yes").1.2)
     = awaiting.
Proof.
  destruct (C2_affirmative_reply_raises_when_outbox_fails plain_lib
              outbox_down_world awaiting_email_session.1
              awaiting_email_session.2 "yes" send_email)
    as (Hnone & _ & Hmode & _).
  - vm_compute. reflexivity.
  - vm_compute. tauto.
  - vm_compute. reflexivity.
  - discriminate.
  - reflexivity.
  - split; [exact Hnone|exact Hmode].
Defined.
